(** * pyFTS: the FTS base model ([pyFTS/common/fts.py]) and the multivariate
      fuzzification helper ([pyFTS/models/multivariate/common.py])

    A shallow embedding of the Python code.  Python dictionaries whose
    iteration order is irrelevant are [gmap]s, dictionaries that are scanned
    are association lists in insertion order, exceptions are the [Raise] case
    of an error monad, and lists that the code mutates in place live in an
    explicit store. *)

From Stdlib Require Import QArith Qround.
From stdpp Require Import base option list gmap strings fin_maps.

Close Scope Q_scope.
Open Scope Z_scope.

(** ** Python exceptions and the error monad *)

Inductive exn :=
  | ValueError (msg : string)
  | TypeError (msg : string)
  | IndexError
  | KeyError (key : string)
  | UnboundLocalError (var : string)
  | NotImplementedError (msg : string)
  | ZeroDivisionError.

Inductive result (A : Type) :=
  | Ok (a : A)
  | Raise (e : exn).
Arguments Ok {A} a.
Arguments Raise {A} e.

Global Instance result_ret : MRet result := fun _ a => Ok a.
Global Instance result_bind : MBind result := fun _ _ f r =>
  match r with
  | Ok a => f a
  | Raise e => Raise e
  end.

Global Instance result_fmap : FMap result := fun _ _ f r =>
  match r with
  | Ok a => Ok (f a)
  | Raise e => Raise e
  end.

(** Reading a local variable that may not have been assigned. *)
Definition read_local {A} (var : string) (slot : option A) : result A :=
  match slot with
  | Some a => Ok a
  | None => Raise (UnboundLocalError var)
  end.

(** ** Python values that travel in keyword dictionaries *)

Inductive pyval :=
  | VNone
  | VBool (b : bool)
  | VInt (z : Z)
  | VStr (s : string)
  | VStrList (l : list string).

Global Instance pyval_eq_dec : EqDecision pyval.
Proof. solve_decision. Defined.

(** [a == b]: [bool] is a subclass of [int], so [True == 1] and [False == 0]. *)
Definition py_eq (a b : pyval) : bool :=
  match a, b with
  | VNone, VNone => true
  | VBool x, VBool y => bool_decide (x = y)
  | VBool x, VInt y | VInt y, VBool x => bool_decide (Z.b2z x = y)
  | VInt x, VInt y => bool_decide (x = y)
  | VStr x, VStr y => bool_decide (x = y)
  | VStrList x, VStrList y => bool_decide (x = y)
  | _, _ => false
  end.

(** [a > b]: defined on numbers (and on two strings, which the code never
    compares); anything else is a [TypeError]. *)
Definition py_gt (a b : pyval) : result bool :=
  match a, b with
  | VBool x, VBool y => Ok (bool_decide (Z.b2z y < Z.b2z x))
  | VBool x, VInt y => Ok (bool_decide (y < Z.b2z x))
  | VInt x, VBool y => Ok (bool_decide (Z.b2z y < x))
  | VInt x, VInt y => Ok (bool_decide (y < x))
  | _, _ => Raise (TypeError "'>' not supported between these instances")
  end.

(** A forecasting horizon is [None] or a number. *)
Definition is_horizon (v : pyval) : bool :=
  match v with
  | VNone | VBool _ | VInt _ => true
  | _ => false
  end.

(** [**kwargs] *)
Abbreviation Kwargs := (gmap string pyval).

(** [d.pop(k)] guarded by [k in d], with a default otherwise. *)
Definition pop_default (k : string) (dflt : pyval) (kw : Kwargs) : pyval * Kwargs :=
  match kw !! k with
  | Some v => (v, delete k kw)
  | None => (dflt, kw)
  end.

(** ** Python sequences *)

(** [range(start, stop, step)] *)
Fixpoint range_from (fuel : nat) (cur step : Z) : list Z :=
  match fuel with
  | O => []
  | S k => cur :: range_from k (cur + step) step
  end.

Definition py_range (start stop step : Z) : result (list Z) :=
  if bool_decide (step = 0) then Raise (ValueError "range() arg 3 must not be zero")
  else if bool_decide (0 < step) then
    Ok (range_from (Z.to_nat ((stop - start + step - 1) / step)) start step)
  else
    Ok (range_from (Z.to_nat ((start - stop - step - 1) / (- step))) start step).

(** Clamping of a slice bound: negative bounds count from the end. *)
Definition slice_bound (n i : Z) : Z :=
  if bool_decide (i < 0) then Z.max (i + n) 0 else Z.min i n.

(** [l[lo:hi]] *)
Definition py_slice {A} (l : list A) (lo hi : Z) : list A :=
  let n := Z.of_nat (length l) in
  let a := slice_bound n lo in
  let b := slice_bound n hi in
  take (Z.to_nat (b - a)) (drop (Z.to_nat a) l).

(** [l[lo:]] *)
Definition py_slice_from {A} (l : list A) (lo : Z) : list A :=
  drop (Z.to_nat (slice_bound (Z.of_nat (length l)) lo)) l.

(** [l[i]] for a non-negative or negative index. *)
Definition py_index {A} (l : list A) (i : Z) : result A :=
  let n := Z.of_nat (length l) in
  let j := if bool_decide (i < 0) then i + n else i in
  if bool_decide (0 <= j < n) then
    match l !! Z.to_nat j with
    | Some a => Ok a
    | None => Raise IndexError
    end
  else Raise IndexError.

(** ** Fuzzy sets *)

(** A fuzzy set as the model sees it: a name and a membership function.
    Membership grades are compared, never computed with, so they are
    rationals here. *)
Record FuzzySet := {
  fs_name : string;
  membership : Q -> Q
}.

(** The dictionary returned by [fuzzy]. *)
Record Best := {
  best_fuzzyset : string;
  best_membership : Q
}.

(** [FTS.fuzzy]: [self.sets] is scanned in insertion order. *)
Definition fuzzy_step (data : Q) (best : Best) (entry : string * FuzzySet) : Best :=
  let fset := entry.2 in
  if Qle_bool (best_membership best) (membership fset data)
  then {| best_fuzzyset := fs_name fset; best_membership := membership fset data |}
  else best.

Definition fuzzy (sets : list (string * FuzzySet)) (data : Q) : Best :=
  foldl (fuzzy_step data) {| best_fuzzyset := ""; best_membership := 0%Q |} sets.

(** ** The multivariate fuzzification helper *)

(** [d[k]] on a dictionary kept in insertion order. *)
Fixpoint dict_get {A} (d : list (string * A)) (k : string) : result A :=
  match d with
  | [] => Raise (KeyError k)
  | (k', a) :: d' => if bool_decide (k' = k) then Ok a else dict_get d' k
  end.

Record Partitioner := {
  sets : list (string * FuzzySet);
  ordered_sets : list string
}.

Record Variable_ := {
  var_name : string;
  var_partitioner : Partitioner
}.

(** [np.ravel(np.argwhere(mv > alpha_cut))]: the positions, in increasing
    order, whose entry is strictly greater than the cut. *)
Definition above_cut (alpha_cut m : Q) : bool :=
  match (alpha_cut ?= m)%Q with
  | Lt => true
  | _ => false
  end.

Fixpoint argwhere_gt (i : Z) (mv : list Q) (alpha_cut : Q) : list Z :=
  match mv with
  | [] => []
  | m :: mv' =>
      if above_cut alpha_cut m then i :: argwhere_gt (i + 1) mv' alpha_cut
      else argwhere_gt (i + 1) mv' alpha_cut
  end.

Definition fuzzyfy_instance (data_point : Q) (var : Variable_) (alpha_cut : Q)
  : result (list (string * string)) :=
  let part := var_partitioner var in
  mv ← mapM (fun key => fset ← dict_get (sets part) key; Ok (membership fset data_point))
            (ordered_sets part);
  let ix := argwhere_gt 0 mv alpha_cut in
  mapM (fun i => s ← py_index (ordered_sets part) i; Ok (var_name var, s)) ix.

(** The default threshold of the [alpha_cut] parameter. *)
Definition default_alpha_cut : Q := 0%Q.

(** The membership of [data_point] in the set stored under [key]. *)
Definition membership_at (part : Partitioner) (data_point : Q) (key : string) : Q :=
  match dict_get (sets part) key with
  | Ok fset => membership fset data_point
  | Raise _ => 0%Q
  end.

(** ** The FTS base model *)

(** A monadic left fold: a [for] loop whose body may raise. *)
Fixpoint foldM {A B} (f : A -> B -> result A) (a : A) (l : list B) : result A :=
  match l with
  | [] => Ok a
  | b :: l' => a' ← f a b; foldM f a' l'
  end.

Section Model.
(** [Data] is whatever a series or a forecast is at run time; [FLRG] is the
    rule-group class, of which only its [__len__] is used here. *)
Context {Data FLRG : Type}.

(** A slot of a parameter list is [None] or an object. *)
Definition Param : Type := option Data.

(** The Transformation collaborator: [apply(data, param)] and
    [inverse(data, param, **kwargs)]. *)
Record Transformation := {
  t_apply : Data -> Param -> result Data;
  t_inverse : Data -> Param -> Kwargs -> result Data
}.

Record FTS := {
  fts_sets : list (string * FuzzySet);
  flrgs : gmap string FLRG;
  order : Z;
  max_lag : Z;
  is_multivariate : bool;
  uod_clip : bool;
  original_min : Q;
  original_max : Q;
  transformations : list Transformation
}.

(** *** Size operations *)

(** [FTS.__len__]: [len(self.flrgs)]. *)
Definition len (self : FTS) : nat := size (flrgs self).

(** [FTS.len_total]: [sum([len(k) for k in self.flrgs])].  Iterating a
    dictionary yields its keys, so [k] is a key and [len(k)] the length of
    that string. *)
Definition len_total (self : FTS) : nat :=
  sum_list ((fun kv : string * FLRG => String.length kv.1) <$> map_to_list (flrgs self)).

(** The total size as the specification words it: the sum, over the rule
    groups, of each group's own size measure. *)
Definition len_total_spec (flrg_size : FLRG -> nat) (self : FTS) : nat :=
  sum_list ((fun kv : string * FLRG => flrg_size kv.2) <$> map_to_list (flrgs self)).

(** *** Transformation pipelines *)

(** [params = [None for k in self.transformations]] when [params is None]. *)
Definition default_params (self : FTS) (params : option (list Param)) : list Param :=
  match params with
  | Some ps => ps
  | None => (fun _ => None) <$> transformations self
  end.

(** The loop of [apply_transformations]:
    [for c, t in enumerate(self.transformations, start=0):
       ndata = t.apply(ndata, params[c])]. *)
Fixpoint apply_loop (params : list Param) (c : Z) (ts : list Transformation)
    (ndata : Data) : result Data :=
  match ts with
  | [] => Ok ndata
  | t :: ts' =>
      p ← py_index params c;
      ndata' ← t_apply t ndata p;
      apply_loop params (c + 1) ts' ndata'
  end.

(** [FTS.apply_transformations] with [updateUoD=False], as [predict] and
    [fit] call it. *)
Definition apply_transformations (self : FTS) (data : Data)
    (params : option (list Param)) : result Data :=
  let ndata := data in
  if bool_decide (0 < length (transformations self))%nat then
    apply_loop (default_params self params) 0 (transformations self) ndata
  else Ok ndata.

(** The loop of [apply_inverse_transformations]:
    [for c, t in enumerate(reversed(self.transformations), start=0):
       ndata = t.inverse(data, params[c], **kwargs)].
    Every call receives [data]; [ndata] is only assigned. *)
Fixpoint inverse_loop (data : Data) (params : list Param) (kwargs : Kwargs) (c : Z)
    (ts : list Transformation) (ndata : option Data) : result (option Data) :=
  match ts with
  | [] => Ok ndata
  | t :: ts' =>
      p ← py_index params c;
      r ← t_inverse t data p kwargs;
      inverse_loop data params kwargs (c + 1) ts' (Some r)
  end.

(** [FTS.apply_inverse_transformations] *)
Definition apply_inverse_transformations (self : FTS) (data : Data)
    (params : option (list Param)) (kwargs : Kwargs) : result Data :=
  if bool_decide (0 < length (transformations self))%nat then
    ndata ← inverse_loop data (default_params self params) kwargs 0
              (reverse (transformations self)) None;
    read_local "ndata" ndata
  else Ok data.

(** The inverse pipeline as the specification words it: the inverses in
    reverse registration order, each one consuming the result of the stage
    before it, stage [c] with the slot [params[c]]. *)
Fixpoint inverse_pipeline_spec_loop (params : list Param) (kwargs : Kwargs) (c : Z)
    (ts : list Transformation) (ndata : Data) : result Data :=
  match ts with
  | [] => Ok ndata
  | t :: ts' =>
      p ← py_index params c;
      r ← t_inverse t ndata p kwargs;
      inverse_pipeline_spec_loop params kwargs (c + 1) ts' r
  end.

Definition inverse_pipeline_spec (self : FTS) (data : Data)
    (params : option (list Param)) (kwargs : Kwargs) : result Data :=
  inverse_pipeline_spec_loop (default_params self params) kwargs 0
    (reverse (transformations self)) data.
End Model.

Arguments Transformation : clear implicits.
Arguments FTS : clear implicits.

(** *** Forecasting entry point *)

Section Predict.
Context {Data FLRG : Type}.

(** The eight forecasting operations of a model, as a concrete class
    provides them.  A one-step operation is declared
    [def forecast(self, data, **kwargs)], a multi-step one
    [def forecast_ahead(self, data, steps, **kwargs)]. *)
Record Methods := {
  impl_forecast : Data -> Kwargs -> result Data;
  impl_forecast_interval : Data -> Kwargs -> result Data;
  impl_forecast_distribution : Data -> Kwargs -> result Data;
  impl_forecast_multivariate : Data -> Kwargs -> result Data;
  impl_forecast_ahead : Data -> pyval -> Kwargs -> result Data;
  impl_forecast_ahead_interval : Data -> pyval -> Kwargs -> result Data;
  impl_forecast_ahead_distribution : Data -> pyval -> Kwargs -> result Data;
  impl_forecast_ahead_multivariate : Data -> pyval -> Kwargs -> result Data
}.

(** The operations as [FTS] itself defines them, [forecast_ahead] apart
    (it is embedded with its store further down). *)
Definition unsupported_one_step (kind : string) : Data -> Kwargs -> result Data :=
  fun _ _ => Raise (NotImplementedError
    ("This model do not perform one step ahead " +:+ kind +:+ " forecasts!")).

Definition unsupported_multi_step (msg : string) : Data -> pyval -> Kwargs -> result Data :=
  fun _ _ _ => Raise (NotImplementedError msg).

Definition base_methods (forecast_ahead : Data -> pyval -> Kwargs -> result Data) : Methods :=
  {| impl_forecast := unsupported_one_step "point";
     impl_forecast_interval := unsupported_one_step "interval";
     impl_forecast_distribution := unsupported_one_step "distribution";
     impl_forecast_multivariate := unsupported_one_step "multivariate";
     impl_forecast_ahead := forecast_ahead;
     impl_forecast_ahead_interval :=
       unsupported_multi_step "This model do not perform multi step ahead interval forecasts!";
     impl_forecast_ahead_distribution :=
       unsupported_multi_step "This model do not perform multi step ahead distribution forecasts!";
     impl_forecast_ahead_multivariate :=
       unsupported_multi_step "This model do not perform one step ahead multivariate forecasts!" |}.

(** Argument binding of the three call shapes [predict] uses.  A keyword
    that names a parameter already bound by position is a [TypeError], and
    so is a parameter left without a value. *)
Definition multiple_values (name : string) : exn :=
  TypeError ("got multiple values for argument '" +:+ name +:+ "'").

Definition missing_steps : exn :=
  TypeError "missing 1 required positional argument: 'steps'".

(** [m(ndata, **kwargs)] where [def m(self, data, **kwargs)] *)
Definition call_one_step (m : Data -> Kwargs -> result Data)
    (ndata : Data) (kwargs : Kwargs) : result Data :=
  if bool_decide (is_Some (kwargs !! "self")) then Raise (multiple_values "self")
  else if bool_decide (is_Some (kwargs !! "data")) then Raise (multiple_values "data")
  else m ndata kwargs.

(** [m(ndata, steps_ahead, **kwargs)] where [def m(self, data, steps, **kwargs)] *)
Definition call_multi_step (m : Data -> pyval -> Kwargs -> result Data)
    (ndata : Data) (steps_ahead : pyval) (kwargs : Kwargs) : result Data :=
  if bool_decide (is_Some (kwargs !! "self")) then Raise (multiple_values "self")
  else if bool_decide (is_Some (kwargs !! "data")) then Raise (multiple_values "data")
  else if bool_decide (is_Some (kwargs !! "steps")) then Raise (multiple_values "steps")
  else m ndata steps_ahead kwargs.

(** [m(ndata, **kwargs)] where [def m(self, data, steps, **kwargs)]: no
    second positional argument, so [steps] can only come from a keyword
    named [steps]. *)
Definition call_multi_step_no_steps (m : Data -> pyval -> Kwargs -> result Data)
    (ndata : Data) (kwargs : Kwargs) : result Data :=
  if bool_decide (is_Some (kwargs !! "self")) then Raise (multiple_values "self")
  else if bool_decide (is_Some (kwargs !! "data")) then Raise (multiple_values "data")
  else match kwargs !! "steps" with
       | Some s => m ndata s (delete "steps" kwargs)
       | None => Raise missing_steps
       end.

(** [self.apply_inverse_transformations(ret, params=[...], **kwargs)] where
    [def apply_inverse_transformations(self, data, params=None, **kwargs)] *)
Definition call_inverse (self : FTS Data FLRG) (ret : Data) (params : list Param)
    (kwargs : Kwargs) : result Data :=
  if bool_decide (is_Some (kwargs !! "self")) then Raise (multiple_values "self")
  else if bool_decide (is_Some (kwargs !! "data")) then Raise (multiple_values "data")
  else if bool_decide (is_Some (kwargs !! "params")) then
    Raise (TypeError "got multiple values for keyword argument 'params'")
  else apply_inverse_transformations self ret (Some params) kwargs.

(** External collaborators: [np.clip], [Util.distributed_predict] and the
    slice [data[i:]] of a series. *)
Variable np_clip : Data -> Q -> Q -> result Data.
Variable distributed_predict :
  FTS Data FLRG -> Kwargs -> pyval -> Data -> pyval -> result Data.
Variable data_from : Data -> Z -> result Data.

Definition recognized_types : list pyval :=
  [VStr "point"; VStr "interval"; VStr "distribution"; VStr "multivariate"].

(** [[...].__contains__(type)] *)
Definition py_contains (l : list pyval) (v : pyval) : bool :=
  existsb (fun x => py_eq x v) l.

(** Lines 124-143: the dispatch on [steps_ahead] and [type].  The result is
    the local [ret], which stays unassigned when no branch is taken. *)
Definition dispatch (methods : Methods) (ndata : Data) (type : pyval)
    (kwargs : Kwargs) : result (option Data) :=
  let steps_ahead := default VNone (kwargs !! "steps_ahead") in
  if py_eq steps_ahead VNone || py_eq steps_ahead (VInt 1) then
    if py_eq type (VStr "point") then
      Some <$> call_one_step (impl_forecast methods) ndata kwargs
    else if py_eq type (VStr "interval") then
      Some <$> call_one_step (impl_forecast_interval methods) ndata kwargs
    else if py_eq type (VStr "distribution") then
      Some <$> call_one_step (impl_forecast_distribution methods) ndata kwargs
    else if py_eq type (VStr "multivariate") then
      Some <$> call_one_step (impl_forecast_multivariate methods) ndata kwargs
    else Ok None
  else
    gt ← py_gt steps_ahead (VInt 1);
    if (gt : bool) then
      if py_eq type (VStr "point") then
        Some <$> call_multi_step (impl_forecast_ahead methods) ndata steps_ahead kwargs
      else if py_eq type (VStr "interval") then
        Some <$> call_multi_step (impl_forecast_ahead_interval methods) ndata steps_ahead kwargs
      else if py_eq type (VStr "distribution") then
        Some <$> call_multi_step (impl_forecast_ahead_distribution methods) ndata steps_ahead kwargs
      else if py_eq type (VStr "multivariate") then
        Some <$> call_multi_step_no_steps (impl_forecast_ahead_multivariate methods) ndata kwargs
      else Ok None
    else Ok None.

(** Lines 104-110: preprocessing. *)
Definition preprocess (self : FTS Data FLRG) (data : Data) : result Data :=
  if is_multivariate self then Ok data
  else
    ndata ← apply_transformations self data None;
    if uod_clip self then np_clip ndata (original_min self) (original_max self)
    else Ok ndata.

(** Lines 117-146: the non-distributed path.  It yields the locals [ret]
    and [type] and the keyword dictionary without its [type] entry. *)
Definition predict_local (methods : Methods) (ndata : Data) (kwargs : Kwargs)
    : result (option Data * pyval * Kwargs) :=
  let '(type, kwargs) := pop_default "type" (VStr "point") kwargs in
  ret ← dispatch methods ndata type kwargs;
  if negb (py_contains recognized_types type) then
    Raise (ValueError "The argument 'type' has an unknown value.")
  else Ok (ret, type, kwargs).

(** [FTS.predict] *)
Definition predict (self : FTS Data FLRG) (methods : Methods) (data : Data)
    (kwargs : Kwargs) : result Data :=
  ndata ← preprocess self data;
  let '(distributed, kwargs) := pop_default "distributed" (VBool false) kwargs in
  '(ret, type, kwargs) ←
    (if bool_decide (distributed = VNone) || py_eq distributed (VBool false) then
       '(ret, type, kwargs) ← predict_local methods ndata kwargs;
       Ok (ret, Some type, kwargs)
     else
       let nodes := default (VStrList ["127.0.0.1"]) (kwargs !! "nodes") in
       let num_batches := default (VInt 10) (kwargs !! "num_batches") in
       ret ← distributed_predict self kwargs nodes ndata num_batches;
       Ok (Some ret, None, kwargs));
  if negb (is_multivariate self) then
    type ← read_local "type" type;
    let kwargs := <["type" := type]> kwargs in
    ret ← read_local "ret" ret;
    tail ← data_from data (max_lag self - 1);
    call_inverse self ret [Some tail] kwargs
  else read_local "ret" ret.
End Predict.

Arguments Methods : clear implicits.

(** The local path of [predict] is taken when [distributed] is absent, [None]
    or equal to [False]. *)
Definition runs_locally (kwargs : Kwargs) : Prop :=
  forall d, kwargs !! "distributed" = Some d -> d = VNone \/ py_eq d (VBool false) = true.

(** *** Multi-step point forecasting *)

(** Python lists are mutable objects: a store maps the address of a list to
    its current contents. *)
Abbreviation loc := nat.

Section ForecastAhead.
Context {V FLRG St : Type}.

(** What a one-step [forecast] returns: a scalar, or a list or array. *)
Inductive forecast_result :=
  | FScalar (v : V)
  | FSeq (l : list V).

(** The [data] argument: a list of the caller, by reference, or an array. *)
Inductive series :=
  | ListRef (l : loc)
  | NdArray (xs : list V).

(** [self.forecast(window, **kwargs)] of the concrete model; [St] is the part
    of the model it may read and update. *)
Variable forecast : St -> list V -> Kwargs -> result (forecast_result * St).

(** [if isinstance(tmp, (list, np.ndarray)): tmp = tmp[-1]] *)
Definition last_if_sequence (tmp : forecast_result) : result V :=
  match tmp with
  | FSeq l => py_index l (-1)
  | FScalar v => Ok v
  end.

(** The body of [for k in np.arange(0, steps)], [todo] iterations left.
    [data] is the address of the working list. *)
Fixpoint forecast_ahead_loop (self : FTS (list V) FLRG) (kwargs : Kwargs) (todo : nat)
    (data : loc) (ret : list V) (st : St) (h : gmap loc (list V))
    : result (list V * St * gmap loc (list V)) :=
  match todo with
  | O => Ok (ret, st, h)
  | S todo' =>
      let working := h !!! data in
      '(tmp, st) ← forecast st (py_slice_from working (- max_lag self)) kwargs;
      tmp ← last_if_sequence tmp;
      let ret := ret ++ [tmp] in
      let h := <[data := working ++ [tmp]]> h in
      forecast_ahead_loop self kwargs todo' data ret st h
  end.

(** [FTS.forecast_ahead]: an array is converted to a new list, a list is
    used as it is. *)
Definition forecast_ahead (self : FTS (list V) FLRG) (data : series) (steps : Z)
    (kwargs : Kwargs) (st : St) (h : gmap loc (list V))
    : result (list V * St * gmap loc (list V)) :=
  let '(data, h) :=
    match data with
    | NdArray xs => let l := fresh (dom h) in (l, <[l := xs]> h)
    | ListRef l => (l, h)
    end in
  forecast_ahead_loop self kwargs (Z.to_nat steps) data [] st h.
End ForecastAhead.

Arguments forecast_result : clear implicits.
Arguments series : clear implicits.

(** A one-step stub that always answers the scalar [c] and keeps a log of the
    windows it was called on. *)
Definition constant_stub {V} (c : V) : list (list V) -> list V -> Kwargs ->
    result (forecast_result V * list (list V)) :=
  fun log window _ => Ok (FScalar c, log ++ [window]).

(** A one-step forecast that always answers, with a scalar or with a
    non-empty sequence. *)
Definition answers {V St} (forecast : St -> list V -> Kwargs -> result (forecast_result V * St))
    (kwargs : Kwargs) : Prop :=
  forall st window, exists tmp st' v,
    forecast st window kwargs = Ok (tmp, st') /\ last_if_sequence tmp = Ok v.

(** The last [m] elements of a list. *)
Definition last_elements {A} (m : nat) (l : list A) : list A :=
  drop (length l - m) l.

(** The address of the working list of a call of [forecast_ahead], and what
    the [data] argument holds when the call starts. *)
Definition working_list {V} (h : gmap loc (list V)) (data : series V) : loc :=
  match data with
  | ListRef l => l
  | NdArray _ => fresh (dom h)
  end.

Definition series_contents {V} (h : gmap loc (list V)) (data : series V) : option (list V) :=
  match data with
  | ListRef l => h !! l
  | NdArray xs => Some xs
  end.

(** The windows a constant one-step forecast [c] is asked about in [todo]
    iterations that start from the working list [xs]. *)
Definition stub_windows {V} (m : nat) (xs : list V) (c : V) (todo : nat) : list (list V) :=
  (fun k => last_elements m (xs ++ replicate k c)) <$> seq 0 todo.

(** *** Batched training *)

Section Fit.
Context {V St : Type}.

(** [self.train(mdata, **kwargs)] of the concrete model and
    [Util.persist_obj(self, file_path)]; [St] is the model being trained. *)
Variable train : St -> list V -> Kwargs -> result St.
Variable persist_obj : St -> pyval -> result St.

(** [self.order], read from the model as it is at that moment. *)
Variable order_of : St -> Z.

(** The body of [for ct in rng] (lines 349-365); the [dump] messages print
    and change nothing. *)
Definition train_window (batch_save : bool) (file_path : pyval) (kwargs : Kwargs)
    (st : St) (mdata : list V) : result St :=
  st ← train st mdata kwargs;
  if batch_save then persist_obj st file_path else Ok st.

(** [mdata = data[ct - self.order : ct + batch_size]]: the order is the one
    the model has when the iteration starts. *)
Definition train_batch (batch_size : Z) (data : list V) (batch_save : bool)
    (file_path : pyval) (kwargs : Kwargs) (st : St) (ct : Z) : result St :=
  let mdata := py_slice data (ct - order_of st) (ct + batch_size) in
  train_window batch_save file_path kwargs st mdata.

(** [int(n / num_batches)]: true division, then truncation towards zero
    (exact for the lengths of lists, far below 2^53). *)
Definition int_div (n d : Z) : result Z :=
  if bool_decide (d = 0) then Raise ZeroDivisionError else Ok (Z.quot n d).

(** Lines 337-365 of [fit]: the branch [num_batches is not None].  The range
    is built once, from the order the model has before the first batch. *)
Definition fit_batches (data : list V) (num_batches : Z) (batch_save : bool)
    (file_path : pyval) (kwargs : Kwargs) (st : St) : result St :=
  let n := Z.of_nat (length data) in
  batch_size ← int_div n num_batches;
  rng ← py_range (order_of st) n batch_size;
  foldM (train_batch batch_size data batch_save file_path kwargs) st rng.

(** Lines 337-368 of [fit]: batched when [num_batches] is given, one call
    of [train] on the whole series otherwise. *)
Definition fit_train (data : list V) (num_batches : option Z)
    (batch_save : bool) (file_path : pyval) (kwargs : Kwargs) (st : St) : result St :=
  match num_batches with
  | Some nb => fit_batches data nb batch_save file_path kwargs st
  | None => train st data kwargs
  end.
End Fit.

(** A [train] that only records the window it was given. *)
Definition recording_train {V} : list (list V) -> list V -> Kwargs -> result (list (list V)) :=
  fun log mdata _ => Ok (log ++ [mdata]).

(** A [persist_obj] that writes nothing. *)
Definition no_persist {St} : St -> pyval -> result St := fun st _ => Ok st.

(** A [persist_obj] that leaves an empty entry in the log of a recording
    [train], so that a save shows. *)
Definition marking_persist {V} : list (list V) -> pyval -> result (list (list V)) :=
  fun log _ => Ok (log ++ [[]]).

(** A [train] that records its window and raises the order of the model by
    one, on a model made of the log and the order. *)
Definition bumping_train {V} : list (list V) * Z -> list V -> Kwargs ->
    result (list (list V) * Z) :=
  fun st mdata _ => Ok (st.1 ++ [mdata], st.2 + 1).

(** The offsets and windows of a batched [fit], read off the slices. *)
Definition batch_offsets (order batch_size : Z) (count : nat) : list Z :=
  (fun k : nat => order + Z.of_nat k * batch_size) <$> seq 0 count.

(** The number of offsets [order, order + batch_size, ...] below [n]. *)
Definition batch_count (order n batch_size : Z) : nat :=
  Z.to_nat ((n - order + batch_size - 1) / batch_size).

Definition batch_window {V} (order batch_size : Z) (data : list V) (offset : Z) : list V :=
  take (Z.to_nat (order + batch_size)) (drop (Z.to_nat (offset - order)) data).

(** *** Registering a transformation *)

Definition set_transformations {Data FLRG} (self : FTS Data FLRG)
    (ts : list (Transformation Data)) : FTS Data FLRG :=
  {| fts_sets := fts_sets self; flrgs := flrgs self; order := order self;
     max_lag := max_lag self; is_multivariate := is_multivariate self;
     uod_clip := uod_clip self; original_min := original_min self;
     original_max := original_max self; transformations := ts |}.

(** [FTS.append_transformation]: [None] is ignored. *)
Definition append_transformation {Data FLRG} (self : FTS Data FLRG)
    (transformation : option (Transformation Data)) : FTS Data FLRG :=
  match transformation with
  | Some t => set_transformations self (transformations self ++ [t])
  | None => self
  end.

(** The same operations, each one made blind to the keywords [type] and
    [distributed]. *)
Definition drop_reserved (kwargs : Kwargs) : Kwargs :=
  delete "type" (delete "distributed" kwargs).


(** The forecasts and the model state of a finished call of [forecast_ahead],
    without the store. *)
Definition forecasts_and_state {V St} (r : result (list V * St * gmap loc (list V)))
    : result (list V * St) :=
  (fun out : list V * St * gmap loc (list V) => (out.1.1, out.1.2)) <$> r.

(** [self.flrgs[key] = flrg] *)
Definition store_flrg {Data FLRG} (self : FTS Data FLRG) (key : string) (flrg : FLRG)
    : FTS Data FLRG :=
  {| fts_sets := fts_sets self; flrgs := <[key := flrg]> (flrgs self); order := order self;
     max_lag := max_lag self; is_multivariate := is_multivariate self;
     uod_clip := uod_clip self; original_min := original_min self;
     original_max := original_max self; transformations := transformations self |}.

(** *** Merging the rule groups of another model *)

Section Merge.
(** Rule groups are objects: [self.flrgs] maps a key to the address of a
    group, and the store maps an address to the group's current value.  The
    FLRG class is a collaborator, seen through [get_key()], the shape of its
    [RHS] and [append_rhs(c)], which updates the group. *)
Context {Data G Item : Type}.

Inductive rhs_shape :=
  | RhsList (items : list Item)
  | RhsSet (items : list Item)
  | RhsDict (entries : list (string * Item))
  | RhsOther (rhs : Item).

Variable get_key : G -> string.
Variable RHS : G -> rhs_shape.
Variable append_rhs : G -> Item -> G.

(** [for k in ...: self.flrgs[key].append_rhs(k)] on the group at [target]. *)
Definition append_all (heap : gmap loc G) (target : loc) (items : list Item)
    : option (gmap loc G) :=
  t ← heap !! target;
  Some (<[target := foldl append_rhs t items]> heap).

(** What one source group contributes to a group already present. *)
Definition rhs_items (rhs : rhs_shape) : list Item :=
  match rhs with
  | RhsList items | RhsSet items => items
  | RhsDict entries => entries.*2
  | RhsOther rhs => [rhs]
  end.

(** One iteration of [for key in model.flrgs.keys()], for the group at
    address [flrg].  The result is [None] where this embedding stops: an
    address without a group, or a list, set or dict [RHS] that belongs to the
    very group stored under its key in [self], which the code would iterate
    while appending to it. *)
Definition merge_step (st : FTS Data loc * gmap loc G) (entry : string * loc)
    : option (FTS Data loc * gmap loc G) :=
  let '(self, heap) := st in
  let flrg := entry.2 in
  g ← heap !! flrg;
  match flrgs self !! get_key g with
  | None => Some (store_flrg self (get_key g) flrg, heap)
  | Some target =>
      match RHS g with
      | RhsList items | RhsSet items =>
          if decide (target = flrg) then None
          else heap' ← append_all heap target items; Some (self, heap')
      | RhsDict entries =>
          if decide (target = flrg) then None
          else heap' ← append_all heap target entries.*2; Some (self, heap')
      | RhsOther rhs => heap' ← append_all heap target [rhs]; Some (self, heap')
      end
  end.

Fixpoint merge_loop (st : FTS Data loc * gmap loc G) (entries : list (string * loc))
    : option (FTS Data loc * gmap loc G) :=
  match entries with
  | [] => Some st
  | entry :: entries' => st' ← merge_step st entry; merge_loop st' entries'
  end.

(** [FTS.merge]; [model_flrgs] is [model.flrgs] as its items in iteration
    order, a dictionary other than [self.flrgs]. *)
Definition merge (self : FTS Data loc) (model_flrgs : list (string * loc))
    (heap : gmap loc G) : option (FTS Data loc * gmap loc G) :=
  merge_loop (self, heap) model_flrgs.
End Merge.

Arguments rhs_shape : clear implicits.

(** *** Training orchestration *)

(** How a call of [fit] ends: normally, with one of the exceptions above, or
    with the plain [Exception] of its own check. *)
Inductive outcome (A : Type) :=
  | Fitted (a : A)
  | FitRaise (e : exn)
  | FitException (msg : string).
Arguments Fitted {A} a.
Arguments FitRaise {A} e.
Arguments FitException {A} msg.

Global Instance outcome_bind : MBind outcome := fun _ _ f r =>
  match r with
  | Fitted a => f a
  | FitRaise e => FitRaise e
  | FitException msg => FitException msg
  end.

Definition lift_result {A} (r : result A) : outcome A :=
  match r with
  | Ok a => Fitted a
  | Raise e => FitRaise e
  end.

(** [if v:] *)
Definition py_truthy (v : pyval) : bool :=
  match v with
  | VNone => false
  | VBool b => b
  | VInt z => negb (bool_decide (z = 0))
  | VStr s => negb (bool_decide (s = ""))
  | VStrList l => negb (bool_decide (l = []))
  end.

(** The divisor of [n / num_batches]. *)
Definition batches_of (num_batches : pyval) : result Z :=
  match num_batches with
  | VInt z => Ok z
  | VBool b => Ok (Z.b2z b)
  | _ => Raise (TypeError "unsupported operand type(s) for /")
  end.

Definition no_sets_message : string :=
  "Fuzzy sets were not provided for the model. Use 'sets' parameter or 'partitioner'. ".

Section FullFit.
Context {V FLRG : Type}.

(** The model as [fit] sees it: the fields of [FTS] above and the two other
    fields it reads, [partitioner] and [benchmark_only]. *)
Record Trainee := {
  core : FTS (list V) FLRG;
  model_partitioner : option Partitioner;
  benchmark_only : bool
}.

Definition with_core (self : Trainee) (c : FTS (list V) FLRG) : Trainee :=
  {| core := c; model_partitioner := model_partitioner self;
     benchmark_only := benchmark_only self |}.

Definition with_partitioner (self : Trainee) (p : option Partitioner) : Trainee :=
  {| core := core self; model_partitioner := p; benchmark_only := benchmark_only self |}.

Definition set_bounds (c : FTS (list V) FLRG) (lo hi : Q) : FTS (list V) FLRG :=
  {| fts_sets := fts_sets c; flrgs := flrgs c; order := order c; max_lag := max_lag c;
     is_multivariate := is_multivariate c; uod_clip := uod_clip c;
     original_min := lo; original_max := hi; transformations := transformations c |}.

Definition set_sets (c : FTS (list V) FLRG) (s : list (string * FuzzySet))
    : FTS (list V) FLRG :=
  {| fts_sets := s; flrgs := flrgs c; order := order c; max_lag := max_lag c;
     is_multivariate := is_multivariate c; uod_clip := uod_clip c;
     original_min := original_min c; original_max := original_max c;
     transformations := transformations c |}.

Definition set_order (c : FTS (list V) FLRG) (o : Z) : FTS (list V) FLRG :=
  {| fts_sets := fts_sets c; flrgs := flrgs c; order := o; max_lag := max_lag c;
     is_multivariate := is_multivariate c; uod_clip := uod_clip c;
     original_min := original_min c; original_max := original_max c;
     transformations := transformations c |}.

(** Collaborators: [np.nanmin], [np.nanmax], the [train] of the concrete
    model, [Util.persist_obj] and [Util.distributed_train] (with its training
    procedure fixed). *)
Variable np_nanmin : list V -> result Q.
Variable np_nanmax : list V -> result Q.
Variable train : Trainee -> list V -> Kwargs -> result Trainee.
Variable persist_obj : Trainee -> pyval -> result Trainee.
Variable distributed_train :
  Trainee -> pyval -> list V -> pyval -> pyval -> pyval -> pyval -> result Trainee.

(** Lines 289-295: preprocessing and the bounds of the universe of discourse. *)
Definition fit_preprocess (self : Trainee) (ndata : list V) : result (list V * Trainee) :=
  if is_multivariate (core self) then Ok (ndata, self)
  else
    data ← apply_transformations (core self) ndata None;
    lo ← np_nanmin data;
    hi ← np_nanmax data;
    Ok (data, with_core self (set_bounds (core self) lo hi)).

(** Lines 297-307: the keywords [sets] and [partitioner], whose values are
    objects, are arguments of their own here ([None]: keyword not given; a
    [sets] keyword holds a mapping), then the check that the model has sets. *)
Definition fit_resolve_sets (self : Trainee) (sets_kw : option (list (string * FuzzySet)))
    (partitioner_kw : option (option Partitioner)) : outcome Trainee :=
  let self := match sets_kw with
              | Some s => with_core self (set_sets (core self) s)
              | None => self
              end in
  let self := match partitioner_kw with
              | Some p => with_partitioner self p
              | None => self
              end in
  if bool_decide (length (fts_sets (core self)) = 0%nat)
     && negb (benchmark_only self) && negb (is_multivariate (core self))
  then
    match model_partitioner self with
    | Some p => Fitted (with_core self (set_sets (core self) (sets p)))
    | None => FitException no_sets_message
    end
  else Fitted self.

(** Lines 326-371: the distributed path or the local one. *)
Definition fit_run (self : Trainee) (data : list V) (kwargs : Kwargs) : result Trainee :=
  let num_batches := default VNone (kwargs !! "num_batches") in
  let batch_save := default (VBool false) (kwargs !! "batch_save") in
  let file_path := default VNone (kwargs !! "file_path") in
  let distributed := default (VBool false) (kwargs !! "distributed") in
  let batch_save_interval := default (VInt 10) (kwargs !! "batch_save_interval") in
  if py_truthy distributed then
    let nodes := default (VBool false) (kwargs !! "nodes") in
    distributed_train self nodes data num_batches batch_save file_path batch_save_interval
  else if bool_decide (num_batches = VNone) then train self data kwargs
  else
    nb ← batches_of num_batches;
    fit_batches train persist_obj (fun model => order (core model)) data nb
      (py_truthy batch_save) file_path kwargs self.

(** [FTS.fit]; [order_kw] is the keyword [order], popped like the two above,
    and [kwargs] holds the remaining keywords. *)
Definition fit (self : Trainee) (ndata : list V) (sets_kw : option (list (string * FuzzySet)))
    (partitioner_kw : option (option Partitioner)) (order_kw : option Z) (kwargs : Kwargs)
    : outcome Trainee :=
  '(data, self) ← lift_result (fit_preprocess self ndata);
  self ← fit_resolve_sets self sets_kw partitioner_kw;
  let self := match order_kw with
              | Some o => with_core self (set_order (core self) o)
              | None => self
              end in
  let save := default (VBool false) (kwargs !! "save_model") in
  let file_path := default VNone (kwargs !! "file_path") in
  self ← lift_result (fit_run self data kwargs);
  if py_truthy save then lift_result (persist_obj self file_path) else Fitted self.
End FullFit.

Arguments Trainee : clear implicits.

(** [FTS.train] of the base class: [pass]. *)
Definition train_pass {St V} : St -> list V -> Kwargs -> result St := fun st _ _ => Ok st.

(** A hook of [fit] (a [train], a save, the cluster) that leaves [order] and
    [max_lag] of the model as they are. *)
Definition keeps_lags {V FLRG} (before after : Trainee V FLRG) : Prop :=
  order (core after) = order (core before) /\
  max_lag (core after) = max_lag (core before).

(** ** Sample inputs *)

Definition constant_set (name : string) (m : Q) : FuzzySet :=
  {| fs_name := name; membership := fun _ => m |}.

(** Three sets, the first two tied at the maximum. *)
Definition sample_sets : list (string * FuzzySet) :=
  [("A0", constant_set "low" (1#2)); ("A1", constant_set "mid" (2#4));
   ("A2", constant_set "high" (1#4))].

(** A variable over three ordered sets with memberships 0.0, 0.6 and 0.4. *)
Definition sample_variable : Variable_ :=
  {| var_name := "temperature";
     var_partitioner :=
       {| sets := [("set3", constant_set "set3" (4#10)); ("set1", constant_set "set1" 0);
                   ("set2", constant_set "set2" (6#10))];
          ordered_sets := ["set1"; "set2"; "set3"] |} |}.

(** Two transformations of integer data: adding an offset and scaling. *)
Definition shift (k : Z) : Transformation Z :=
  {| t_apply := fun d _ => Ok (d + k);
     t_inverse := fun d _ _ => Ok (d - k) |}.

Definition scale (k : Z) : Transformation Z :=
  {| t_apply := fun d _ => Ok (d * k);
     t_inverse := fun d _ _ => Ok (d / k) |}.

(** A rule group whose size measure is the cardinality of its right-hand side. *)
Record SampleFLRG := {
  LHS : string;
  RHS : list string
}.

Definition flrg_len (g : SampleFLRG) : nat := length (RHS g).

(** A rule group of the conventional kind: a key and a list of consequents. *)
Definition sample_get_key (g : SampleFLRG) : string := LHS g.
Definition sample_rhs (g : SampleFLRG) : rhs_shape string := RhsList (RHS g).
Definition sample_append_rhs (g : SampleFLRG) (c : string) : SampleFLRG :=
  {| LHS := LHS g; RHS := RHS g ++ [c] |}.

(** A univariate model with any pipeline and rule groups. *)
Definition sample_model {Data FLRG} (ts : list (Transformation Data))
    (groups : gmap string FLRG) : FTS Data FLRG :=
  {| fts_sets := sample_sets; flrgs := groups; order := 1; max_lag := 1;
     is_multivariate := false; uod_clip := false;
     original_min := 0; original_max := 0;
     transformations := ts |}.

Definition sample_groups : gmap string SampleFLRG :=
  {[ "A1" := {| LHS := "A1"; RHS := ["A1"; "A2"; "A3"] |} ]}.

(** A multivariate model without transformations. *)
Definition sample_multivariate_model {Data FLRG} : FTS Data FLRG :=
  {| fts_sets := []; flrgs := ∅; order := 1; max_lag := 1;
     is_multivariate := true; uod_clip := true;
     original_min := 0; original_max := 0;
     transformations := [] |}.

(** A concrete model over integer data that implements all eight operations:
    a one-step operation answers its input, a multi-step one answers
    [100 * data + steps]. *)
Definition steps_of (steps : pyval) : Z :=
  match steps with
  | VInt z => z
  | VBool b => Z.b2z b
  | _ => 0
  end.

Definition capable_methods : Methods Z :=
  {| impl_forecast := fun d _ => Ok d;
     impl_forecast_interval := fun d _ => Ok d;
     impl_forecast_distribution := fun d _ => Ok d;
     impl_forecast_multivariate := fun d _ => Ok d;
     impl_forecast_ahead := fun d steps _ => Ok (100 * d + steps_of steps);
     impl_forecast_ahead_interval := fun d steps _ => Ok (100 * d + steps_of steps);
     impl_forecast_ahead_distribution := fun d steps _ => Ok (100 * d + steps_of steps);
     impl_forecast_ahead_multivariate := fun d steps _ => Ok (100 * d + steps_of steps) |}.

(** Collaborators for integer data: clipping into the bounds, no cluster, and
    a series of one value whose tail is itself. *)
Definition clip_Z (d : Z) (lo hi : Q) : result Z :=
  Ok (Z.max (Qceiling lo) (Z.min d (Qfloor hi))).

Definition no_cluster {Data FLRG} :
    FTS Data FLRG -> Kwargs -> pyval -> Data -> pyval -> result Data :=
  fun _ _ _ _ _ => Raise (NotImplementedError "no dispy cluster").

Definition whole_series {Data} : Data -> Z -> result Data := fun d _ => Ok d.

(** A one-step forecast that answers the sum of its window, as a list of one
    element, and a univariate model of a given lag. *)
Definition sum_forecast : unit -> list Z -> Kwargs -> result (forecast_result Z * unit) :=
  fun st window _ => Ok (FSeq [foldr Z.add 0 window], st).

Definition lagged_model {Data FLRG} (lag : Z) : FTS Data FLRG :=
  {| fts_sets := sample_sets; flrgs := ∅; order := lag; max_lag := lag;
     is_multivariate := false; uod_clip := true;
     original_min := 0; original_max := 0;
     transformations := [] |}.

(** The series 0, 1, ..., n - 1. *)
Definition count_series (n : nat) : list Z := Z.of_nat <$> seq 0 n.

(** A model for [fit] over integer data, with its bounds taken by folding. *)
Definition sample_trainee (sets : list (string * FuzzySet)) (p : option Partitioner)
    : Trainee Z SampleFLRG :=
  {| core := {| fts_sets := sets; flrgs := ∅; order := 1; max_lag := 1;
                is_multivariate := false; uod_clip := true;
                original_min := 0; original_max := 0; transformations := [] |};
     model_partitioner := p;
     benchmark_only := false |}.

Definition list_min (l : list Z) : result Q :=
  match l with
  | [] => Raise (ValueError "zero-size array to reduction operation fmin which has no identity")
  | x :: l' => Ok (inject_Z (foldr Z.min x l'))
  end.

Definition list_max (l : list Z) : result Q :=
  match l with
  | [] => Raise (ValueError "zero-size array to reduction operation fmax which has no identity")
  | x :: l' => Ok (inject_Z (foldr Z.max x l'))
  end.

Definition no_cluster_train {St V} :
    St -> pyval -> list V -> pyval -> pyval -> pyval -> pyval -> result St :=
  fun _ _ _ _ _ _ _ => Raise (NotImplementedError "no dispy cluster").

(** * Properties *)

(** ** Sequences *)

Lemma py_index_lookup {A} (l : list A) (i : nat) (a : A) :
  l !! i = Some a -> py_index l (Z.of_nat i) = Ok a.
Proof.
  intros Hl. unfold py_index.
  pose proof (lookup_lt_Some _ _ _ Hl) as Hlt.
  rewrite (bool_decide_eq_false_2 (Z.of_nat i < 0)) by lia.
  rewrite bool_decide_eq_true_2 by lia.
  by rewrite Nat2Z.id, Hl.
Qed.

Lemma py_index_last {A} (l : list A) (a : A) : py_index (l ++ [a]) (-1) = Ok a.
Proof.
  unfold py_index. rewrite length_app; simpl.
  rewrite bool_decide_eq_true_2 by lia.
  replace (Z.to_nat (-1 + Z.of_nat (length l + 1))) with (length l) by lia.
  by rewrite list_lookup_middle.
Qed.

(** ** fuzzy *)

Lemma above_cut_iff (alpha m : Q) : above_cut alpha m = true <-> (alpha < m)%Q.
Proof.
  unfold above_cut. rewrite Qlt_alt.
  destruct (alpha ?= m)%Q; split; congruence.
Qed.

Lemma fuzzy_snoc (l : list (string * FuzzySet)) (e : string * FuzzySet) (d : Q) :
  fuzzy (l ++ [e]) d = fuzzy_step d (fuzzy l d) e.
Proof. unfold fuzzy. by rewrite foldl_app. Qed.

(** C5. Over memberships that are never negative, [fuzzy d] on an empty
    mapping is the degenerate result (empty name, membership 0); otherwise it
    is the name and membership of a configured set whose membership at [d] is
    at least that of every set scanned before it and strictly above that of
    every set scanned after it: the maximum, the last one among ties. *)
Theorem fuzzy_last_maximum (sets : list (string * FuzzySet)) (d : Q)
    (Hrange : Forall (fun e => (0 <= membership e.2 d)%Q) sets) :
  (sets = [] -> fuzzy sets d = {| best_fuzzyset := ""; best_membership := 0%Q |}) /\
  (sets <> [] ->
     exists before key fset after,
       sets = before ++ (key, fset) :: after /\
       fuzzy sets d = {| best_fuzzyset := fs_name fset;
                         best_membership := membership fset d |} /\
       Forall (fun e => (membership e.2 d <= membership fset d)%Q) before /\
       Forall (fun e => (membership e.2 d < membership fset d)%Q) after).
Proof.
  split; [intros ->; reflexivity|].
  induction sets as [|[k f] l IH] using rev_ind; [done|]. intros _.
  apply Forall_app in Hrange as [Hl Hf].
  rewrite Forall_singleton in Hf. simpl in Hf.
  rewrite fuzzy_snoc. unfold fuzzy_step. simpl.
  destruct l as [|e0 l0].
  - simpl. replace (Qle_bool 0 (membership f d)) with true
      by (symmetry; by apply Qle_bool_iff).
    exists [], k, f, []. split_and!; [done|done|constructor|constructor].
  - assert (e0 :: l0 <> []) as Hne by done.
    remember (e0 :: l0) as l eqn:El. clear El.
    destruct (IH Hl Hne) as (before & k' & f' & after & Heq & Hbest & Hb & Ha).
    rewrite Hbest. simpl.
    destruct (Qle_bool (membership f' d) (membership f d)) eqn:Hcmp.
    + apply Qle_bool_iff in Hcmp.
      exists l, k, f, []. split_and!; [done|done| |constructor].
      rewrite Heq. apply Forall_app. split.
      * eapply Forall_impl; [exact Hb|]. intros e He. simpl in He.
        eapply Qle_trans; eauto.
      * constructor; [done|].
        eapply Forall_impl; [exact Ha|]. intros e He. simpl in He.
        apply Qlt_le_weak. eapply Qlt_le_trans; eauto.
    + assert (membership f d < membership f' d)%Q as Hlt.
      { apply Qnot_le_lt. intros Hle. apply Qle_bool_iff in Hle. congruence. }
      exists before, k', f', (after ++ [(k, f)]). split_and!; [|done|done|].
      * rewrite Heq. by rewrite <- app_assoc.
      * apply Forall_app. split; [done|]. by constructor.
Qed.

Example fuzzy_sample :
  fuzzy sample_sets 7 = {| best_fuzzyset := "mid"; best_membership := 2#4 |}.
Proof. reflexivity. Qed.

Lemma fuzzy_last_maximum_witness :
  Forall (fun e => (0 <= membership e.2 7)%Q) sample_sets /\
  (sample_sets <> [] ->
     exists before key fset after,
       sample_sets = before ++ (key, fset) :: after /\
       fuzzy sample_sets 7 = {| best_fuzzyset := fs_name fset;
                                best_membership := membership fset 7 |} /\
       Forall (fun e => (membership e.2 7 <= membership fset 7)%Q) before /\
       Forall (fun e => (membership e.2 7 < membership fset 7)%Q) after).
Proof.
  split.
  - repeat constructor; vm_compute; discriminate.
  - apply (fuzzy_last_maximum sample_sets 7).
    repeat constructor; vm_compute; discriminate.
Defined.

(** ** fuzzyfy_instance *)

Lemma memberships_ok (part : Partitioner) (d : Q) (keys : list string) :
  Forall (fun key => exists fset, dict_get (sets part) key = Ok fset) keys ->
  mapM (fun key => fset ← dict_get (sets part) key; Ok (membership fset d)) keys
  = Ok (membership_at part d <$> keys).
Proof.
  induction 1 as [|key keys [fset Hget] _ IH]; [done|].
  cbn [mapM]. rewrite IH, Hget. cbn. unfold membership_at. by rewrite Hget.
Qed.

Lemma select_by_position (name : string) (mu : string -> Q) (alpha : Q)
    (pre keys : list string) :
  mapM (fun i => s ← py_index (pre ++ keys) i; Ok (name, s))
       (argwhere_gt (Z.of_nat (length pre)) (mu <$> keys) alpha)
  = Ok ((fun key => (name, key)) <$> List.filter (fun key => above_cut alpha (mu key)) keys).
Proof.
  revert pre. induction keys as [|key keys IH]; intros pre; [done|].
  assert (Hnext : mapM (fun i => s ← py_index (pre ++ key :: keys) i; Ok (name, s))
            (argwhere_gt (Z.of_nat (length pre) + 1) (mu <$> keys) alpha)
          = Ok ((fun key => (name, key)) <$>
                  List.filter (fun key => above_cut alpha (mu key)) keys)).
  { specialize (IH (pre ++ [key])). rewrite <- app_assoc in IH. simpl in IH.
    rewrite length_app in IH. simpl in IH.
    replace (Z.of_nat (length pre + 1)) with (Z.of_nat (length pre) + 1) in IH by lia.
    exact IH. }
  cbn [fmap list_fmap argwhere_gt List.filter].
  destruct (above_cut alpha (mu key)); [|exact Hnext].
  cbn [mapM]. rewrite Hnext.
  rewrite (py_index_lookup _ _ key) by (by apply list_lookup_middle).
  reflexivity.
Qed.

Lemma filter_is_sublist {A} (p : A -> bool) (l : list A) :
  List.filter p l `sublist_of` l.
Proof.
  induction l as [|a l IH]; simpl; [done|].
  destruct (p a); by constructor.
Qed.

(** C8. When every name of [ordered_sets] is a key of the set mapping,
    [fuzzyfy_instance] returns the pairs (variable name, set name) for the
    list [selected] of exactly the names whose membership of the observation
    is strictly greater than [alpha_cut], in [ordered_sets] order: a name is
    selected if and only if it is in [ordered_sets] and its membership is
    above the cut; hence nothing is selected when no membership exceeds the
    cut, a membership equal to the cut included. *)
Theorem fuzzyfy_instance_above_cut (data_point : Q) (var : Variable_) (alpha_cut : Q)
    (Hkeys : Forall (fun key => exists fset, dict_get (sets (var_partitioner var)) key = Ok fset)
                    (ordered_sets (var_partitioner var))) :
  exists selected,
    fuzzyfy_instance data_point var alpha_cut
    = Ok ((fun key => (var_name var, key)) <$> selected) /\
    selected
    = List.filter
        (fun key =>
           if Qlt_le_dec alpha_cut (membership_at (var_partitioner var) data_point key)
           then true else false)
        (ordered_sets (var_partitioner var)) /\
    selected `sublist_of` ordered_sets (var_partitioner var) /\
    (forall key,
       key ∈ selected <->
       key ∈ ordered_sets (var_partitioner var) /\
       (alpha_cut < membership_at (var_partitioner var) data_point key)%Q) /\
    (Forall (fun key => (membership_at (var_partitioner var) data_point key <= alpha_cut)%Q)
            (ordered_sets (var_partitioner var)) ->
     selected = []).
Proof.
  set (mu := membership_at (var_partitioner var) data_point).
  set (keys := ordered_sets (var_partitioner var)).
  set (above := fun key => if Qlt_le_dec alpha_cut (mu key) then true else false).
  assert (Habove : forall key, above key = true <-> (alpha_cut < mu key)%Q).
  { intros key. unfold above. destruct (Qlt_le_dec alpha_cut (mu key)) as [Hlt|Hle].
    - done.
    - split; [done|]. intros Hlt. exfalso. by apply (Qlt_not_le _ _ Hlt). }
  exists (List.filter above keys). split_and!.
  - unfold fuzzyfy_instance. rewrite memberships_ok by done. cbn [mbind result_bind].
    etrans; [apply (select_by_position _ _ _ [])|]. do 2 f_equal.
    apply filter_ext. intros key.
    destruct (above_cut alpha_cut _) eqn:Hcut.
    + symmetry. apply Habove. by apply above_cut_iff.
    + destruct (above key) eqn:Ha; [|done].
      apply Habove, above_cut_iff in Ha. fold mu in Ha. unfold mu in Ha. congruence.
  - done.
  - apply filter_is_sublist.
  - intros key. rewrite !list_elem_of_In, filter_In, Habove. done.
  - intros Hle. induction Hle as [|key keys' Hk _ IH]; [done|].
    cbn [List.filter]. destruct (above key) eqn:Ha; [|exact IH].
    apply Habove in Ha. exfalso. by apply (Qlt_not_le _ _ Ha).
Qed.

Lemma fuzzyfy_instance_above_cut_witness :
  Forall (fun key => exists fset, dict_get (sets (var_partitioner sample_variable)) key = Ok fset)
         (ordered_sets (var_partitioner sample_variable)) /\
  fuzzyfy_instance 21 sample_variable default_alpha_cut
  = Ok [("temperature", "set2"); ("temperature", "set3")] /\
  fuzzyfy_instance 21 sample_variable (3#10)
  = Ok [("temperature", "set2"); ("temperature", "set3")] /\
  fuzzyfy_instance 21 sample_variable (6#10) = Ok [].
Proof.
  assert (Forall (fun key => exists fset,
                    dict_get (sets (var_partitioner sample_variable)) key = Ok fset)
                 (ordered_sets (var_partitioner sample_variable))) as Hkeys.
  { repeat constructor; eexists; reflexivity. }
  split; [exact Hkeys|]. split_and!.
  - destruct (fuzzyfy_instance_above_cut 21 sample_variable default_alpha_cut Hkeys)
      as (selected & -> & -> & _). reflexivity.
  - destruct (fuzzyfy_instance_above_cut 21 sample_variable (3#10) Hkeys)
      as (selected & -> & -> & _). reflexivity.
  - destruct (fuzzyfy_instance_above_cut 21 sample_variable (6#10) Hkeys)
      as (selected & -> & -> & _). reflexivity.
Defined.

Example fuzzyfy_instance_cut_at_maximum :
  fuzzyfy_instance 21 sample_variable (6#10) = Ok [].
Proof. reflexivity. Qed.

(** ** Size operations *)

Section Sizes.
Context {Data FLRG : Type}.
Implicit Types self : FTS Data FLRG.

Lemma len_counts_keys self : len self = size (dom (flrgs self)).
Proof. unfold len. by rewrite size_dom. Qed.

Lemma len_total_empty self : flrgs self = ∅ -> len_total self = 0%nat.
Proof. unfold len_total. intros ->. by rewrite map_to_list_empty. Qed.
End Sizes.

(** C2. On a model with the single rule group [A1 -> A1, A2, A3], stored under
    the key ["A1"], the rule-group count is 1 and [len_total] is 2, the length
    of the key, where the sum of the groups' size measures is 3. *)
Theorem len_total_sums_key_lengths :
  len (sample_model (Data := Z) [] sample_groups) = 1%nat /\
  len_total (sample_model (Data := Z) [] sample_groups) = 2%nat /\
  len_total_spec flrg_len (sample_model (Data := Z) [] sample_groups) = 3%nat.
Proof. by vm_compute. Qed.

(** ** Transformation pipelines *)

Section Pipelines.
Context {Data FLRG : Type}.
Implicit Types self : FTS Data FLRG.

Lemma apply_inverse_transformations_none self data params kwargs :
  transformations self = [] ->
  apply_inverse_transformations self data params kwargs = Ok data.
Proof. unfold apply_inverse_transformations. by intros ->. Qed.

Lemma apply_transformations_none self data params :
  transformations self = [] -> apply_transformations self data params = Ok data.
Proof. unfold apply_transformations. by intros ->. Qed.

(** With one transformation the code and the worded pipeline agree. *)
Lemma apply_inverse_transformations_single self data params kwargs t :
  transformations self = [t] ->
  apply_inverse_transformations self data params kwargs
  = inverse_pipeline_spec self data params kwargs.
Proof.
  unfold apply_inverse_transformations, inverse_pipeline_spec. intros ->.
  simpl. destruct (py_index _ 0); [|done]. simpl.
  by destruct (t_inverse t data a kwargs).
Qed.

Lemma inverse_loop_snoc (data : Data) params kwargs c ts t ndata :
  inverse_loop data params kwargs c (ts ++ [t]) ndata
  = (_ ← inverse_loop data params kwargs c ts ndata;
     p ← py_index params (c + Z.of_nat (length ts));
     r ← t_inverse t data p kwargs;
     Ok (Some r)).
Proof.
  revert c ndata. induction ts as [|t' ts IH]; intros c ndata.
  - simpl. rewrite Z.add_0_r. destruct (py_index params c); [|done]. simpl.
    by destruct (t_inverse t data a kwargs).
  - cbn [app inverse_loop length]. destruct (py_index params c); [|done]. simpl.
    destruct (t_inverse t' data a kwargs); [|done]. simpl.
    rewrite IH. by replace (c + 1 + Z.of_nat (length ts)) with (c + Z.pos (Pos.of_succ_nat (length ts))) by lia.
Qed.

(** What the loop leaves in [ndata]: when every call succeeds, the inverse
    of the transformation registered first, applied to the ORIGINAL data
    with the last parameter slot; the earlier results are discarded. *)
Lemma apply_inverse_transformations_keeps_last self data params kwargs t1 ts :
  transformations self = t1 :: ts ->
  (forall t p, t ∈ ts -> exists r, t_inverse t data p kwargs = Ok r) ->
  length (default_params self params) = S (length ts) ->
  apply_inverse_transformations self data params kwargs
  = (p ← py_index (default_params self params) (Z.of_nat (length ts));
     t_inverse t1 data p kwargs).
Proof.
  intros Hts Hok Hlen. unfold apply_inverse_transformations. rewrite Hts.
  simpl bool_decide. cbn iota. rewrite reverse_cons, inverse_loop_snoc, length_reverse.
  set (ps := default_params self params) in *. clearbody ps.
  assert (Hloop : forall l c nd, (forall t, t ∈ l -> t ∈ ts) ->
            (0 <= c)%Z -> (Z.to_nat c + length l <= length ts)%nat ->
            exists r, inverse_loop data ps kwargs c l nd = Ok r).
  { induction l as [|t l IH]; intros c nd Hin Hc Hl; [by eexists|].
    simpl in *. rewrite <- (Z2Nat.id c) by done.
    destruct (lookup_lt_is_Some_2 ps (Z.to_nat c)) as [p Hp]; [lia|].
    rewrite (py_index_lookup _ _ _ Hp). simpl.
    destruct (Hok t p) as [r ->]; [apply Hin; left|]. simpl.
    apply IH; [intros; apply Hin; by right|lia|lia]. }
  destruct (Hloop (reverse ts) 0 None) as [r ->].
  - intros t. by rewrite elem_of_reverse.
  - done.
  - rewrite length_reverse. simpl. lia.
  - simpl. destruct (py_index ps _); [|done]. simpl.
    by destruct (t_inverse t1 data a kwargs).
Qed.
End Pipelines.

(** C1. With the pipeline [shift 1; scale 2] and the forward result 22 of the
    input 10, [apply_inverse_transformations] returns 21: the inverse of
    [shift 1] on the data it was given, the result of the inverse of [scale 2]
    being dropped; the worded pipeline gives back 10.  The forward direction
    threads its stages. *)
Theorem apply_inverse_transformations_drops_stages :
  apply_transformations (sample_model (FLRG := SampleFLRG) [shift 1; scale 2] ∅) 10 None
    = Ok 22 /\
  apply_inverse_transformations (sample_model (FLRG := SampleFLRG) [shift 1; scale 2] ∅) 22 None ∅
    = Ok 21 /\
  inverse_pipeline_spec (sample_model (FLRG := SampleFLRG) [shift 1; scale 2] ∅) 22 None ∅
    = Ok 10.
Proof. split_and!; reflexivity. Qed.

(** ** predict *)

Lemma py_eq_sym (a b : pyval) : py_eq a b = py_eq b a.
Proof.
  destruct a, b; simpl; try reflexivity;
    apply bool_decide_ext; split; congruence.
Qed.

Lemma py_contains_recognized (type : pyval) :
  py_contains recognized_types type = true <-> type ∈ recognized_types.
Proof.
  unfold recognized_types, py_contains. split.
  - intros H. apply existsb_exists in H as (x & Hin & Heq).
    apply list_elem_of_In in Hin.
    assert (x = type) as <-; [|done].
    repeat (apply elem_of_cons in Hin as [->|Hin]);
      try (destruct type; simpl in Heq; try done; by apply bool_decide_eq_true in Heq as <-).
    by apply elem_of_nil in Hin.
  - intros H. repeat (apply elem_of_cons in H as [->|H]); try reflexivity.
    by apply elem_of_nil in H.
Qed.

Lemma pop_default_lookup_ne (k k' : string) (dflt : pyval) (kw : Kwargs) :
  k <> k' -> (pop_default k dflt kw).2 !! k' = kw !! k'.
Proof.
  intros Hne. unfold pop_default. destruct (kw !! k); simpl; [|done].
  by rewrite lookup_delete_ne.
Qed.

Lemma pop_default_value (k : string) (dflt : pyval) (kw : Kwargs) :
  (pop_default k dflt kw).1 = default dflt (kw !! k).
Proof. unfold pop_default. by destruct (kw !! k). Qed.

Section PredictFacts.
Context {Data FLRG : Type}.
Variable np_clip : Data -> Q -> Q -> result Data.
Variable distributed_predict :
  FTS Data FLRG -> Kwargs -> pyval -> Data -> pyval -> result Data.
Variable data_from : Data -> Z -> result Data.
Implicit Types (self : FTS Data FLRG) (methods : Methods Data) (kwargs : Kwargs).

(** No branch of the dispatch is taken for a type that is not recognized. *)
Lemma dispatch_unknown_type methods ndata type kwargs :
  type ∉ recognized_types ->
  (forall v, kwargs !! "steps_ahead" = Some v -> is_horizon v = true) ->
  dispatch methods ndata type kwargs = Ok None.
Proof.
  intros Hty Hsteps. unfold dispatch.
  assert (forall s, VStr s ∈ recognized_types -> py_eq type (VStr s) = false) as Hne.
  { intros s Hs. destruct type; simpl; try done.
    apply bool_decide_eq_false. intros ->. by apply Hty. }
  rewrite !Hne by (unfold recognized_types; set_solver).
  destruct (kwargs !! "steps_ahead") as [v|] eqn:Hv; simpl; [|done].
  specialize (Hsteps v eq_refl).
  destruct v as [|b|z|s|l]; simpl in *; try done.
  - by destruct (bool_decide (Z.b2z b = 1)), (bool_decide (1 < Z.b2z b)).
  - by destruct (bool_decide (z = 1)), (bool_decide (1 < z)).
Qed.

(** No branch of the dispatch is taken for a horizon that is given, is not 1
    and is not greater than 1. *)
Lemma dispatch_no_horizon methods ndata type kwargs v :
  kwargs !! "steps_ahead" = Some v ->
  py_eq v VNone = false -> py_eq v (VInt 1) = false -> py_gt v (VInt 1) = Ok false ->
  dispatch methods ndata type kwargs = Ok None.
Proof.
  intros Hv Hnone Hone Hgt. unfold dispatch. rewrite Hv. simpl.
  by rewrite Hnone, Hone, Hgt.
Qed.

(** The three multi-step branches that pass the horizon on. *)
Lemma dispatch_ahead_with_steps methods ndata kwargs z :
  kwargs !! "steps_ahead" = Some (VInt z) -> 1 < z ->
  dispatch methods ndata (VStr "point") kwargs
    = Some <$> call_multi_step (impl_forecast_ahead methods) ndata (VInt z) kwargs /\
  dispatch methods ndata (VStr "interval") kwargs
    = Some <$> call_multi_step (impl_forecast_ahead_interval methods) ndata (VInt z) kwargs /\
  dispatch methods ndata (VStr "distribution") kwargs
    = Some <$> call_multi_step (impl_forecast_ahead_distribution methods) ndata (VInt z) kwargs.
Proof.
  intros Hv Hz. unfold dispatch. rewrite Hv. simpl.
  rewrite (bool_decide_eq_false_2 (z = 1)) by lia.
  rewrite (bool_decide_eq_true_2 (1 < z)) by lia. done.
Qed.

(** The multivariate multi-step branch passes no horizon: unless the caller
    happens to supply a keyword named [steps], binding the arguments fails. *)
Lemma dispatch_ahead_multivariate methods ndata kwargs z :
  kwargs !! "steps_ahead" = Some (VInt z) -> 1 < z ->
  kwargs !! "self" = None -> kwargs !! "data" = None -> kwargs !! "steps" = None ->
  dispatch methods ndata (VStr "multivariate") kwargs = Raise missing_steps.
Proof.
  intros Hv Hz Hself Hdata Hsteps. unfold dispatch. rewrite Hv. simpl.
  rewrite (bool_decide_eq_false_2 (z = 1)) by lia.
  rewrite (bool_decide_eq_true_2 (1 < z)) by lia. simpl.
  unfold call_multi_step_no_steps. by rewrite Hself, Hdata, Hsteps.
Qed.

Lemma predict_on_local_path self methods data ndata kwargs :
  preprocess np_clip self data = Ok ndata ->
  runs_locally kwargs ->
  predict np_clip distributed_predict data_from self methods data kwargs
  = ('(ret, type, kwargs) ←
       predict_local methods ndata (pop_default "distributed" (VBool false) kwargs).2;
     if negb (is_multivariate self) then
       let kwargs := <["type" := type]> kwargs in
       ret ← read_local "ret" ret;
       tail ← data_from data (max_lag self - 1);
       call_inverse self ret [Some tail] kwargs
     else read_local "ret" ret).
Proof.
  intros Hpre Hloc. unfold predict. rewrite Hpre. simpl.
  destruct (pop_default "distributed" (VBool false) kwargs) as [d kw] eqn:Hpop.
  assert (bool_decide (d = VNone) || py_eq d (VBool false) = true) as ->.
  { pose proof (pop_default_value "distributed" (VBool false) kwargs) as Hd.
    rewrite Hpop in Hd. simpl in Hd. subst d.
    destruct (kwargs !! "distributed") as [d|] eqn:Hd; simpl; [|done].
    destruct (Hloc d Hd) as [->| ->]; [done|]. apply orb_true_r. }
  simpl. destruct (predict_local methods ndata kw) as [[[ret type] kw']|e]; [|done].
  simpl. by destruct (is_multivariate self).
Qed.

(** C7. On the non-distributed path, once preprocessing has succeeded, a
    [type] option outside point, interval, distribution and multivariate makes
    [predict] raise the [ValueError] that names the [type] argument, whatever
    the horizon; no forecast is returned. *)
Theorem predict_unknown_type_fails self methods data ndata kwargs type
    (Hpre : preprocess np_clip self data = Ok ndata)
    (Hlocal : runs_locally kwargs)
    (Htype : kwargs !! "type" = Some type)
    (Hunknown : type ∉ recognized_types)
    (Hsteps : forall v, kwargs !! "steps_ahead" = Some v -> is_horizon v = true) :
  predict np_clip distributed_predict data_from self methods data kwargs
  = Raise (ValueError "The argument 'type' has an unknown value.").
Proof.
  rewrite (predict_on_local_path _ _ _ ndata) by done.
  set (kw := (pop_default "distributed" (VBool false) kwargs).2).
  assert (kw !! "type" = Some type) as Hty.
  { unfold kw. by rewrite pop_default_lookup_ne. }
  assert (forall v, kw !! "steps_ahead" = Some v -> is_horizon v = true) as Hst.
  { unfold kw. by rewrite pop_default_lookup_ne. }
  clearbody kw. unfold predict_local, pop_default. rewrite Hty.
  rewrite dispatch_unknown_type; [|done|].
  - destruct (py_contains recognized_types type) eqn:Hc; [|done].
    by apply py_contains_recognized in Hc.
  - intros v. rewrite lookup_delete_ne by done. apply Hst.
Qed.

(** C10. On the non-distributed path, once preprocessing has succeeded, with
    a recognized type and a horizon that is given but is neither [None], nor
    equal to 1, nor greater than 1, no branch of the dispatch assigns [ret],
    the type check passes, and [predict] raises [UnboundLocalError] for [ret]:
    in the call of the inverse pipeline for a univariate model, at the final
    [return] for a multivariate one. *)
Theorem predict_without_branch_is_unbound self methods data ndata kwargs v
    (Hpre : preprocess np_clip self data = Ok ndata)
    (Hlocal : runs_locally kwargs)
    (Htype : default (VStr "point") (kwargs !! "type") ∈ recognized_types)
    (Hsteps : kwargs !! "steps_ahead" = Some v)
    (Hnone : py_eq v VNone = false)
    (Hone : py_eq v (VInt 1) = false)
    (Hgt : py_gt v (VInt 1) = Ok false) :
  (forall type kw, kw !! "steps_ahead" = Some v ->
     dispatch methods ndata type kw = Ok None) /\
  predict np_clip distributed_predict data_from self methods data kwargs
  = Raise (UnboundLocalError "ret").
Proof.
  split; [intros type kw Hkw; by eapply dispatch_no_horizon|].
  rewrite (predict_on_local_path _ _ _ ndata) by done.
  set (kw := (pop_default "distributed" (VBool false) kwargs).2).
  assert (kw !! "type" = kwargs !! "type") as Hty.
  { unfold kw. by rewrite pop_default_lookup_ne. }
  assert (kw !! "steps_ahead" = Some v) as Hst.
  { unfold kw. by rewrite pop_default_lookup_ne. }
  clearbody kw. unfold predict_local.
  destruct (pop_default "type" (VStr "point") kw) as [type kw'] eqn:Hpop.
  assert (type ∈ recognized_types) as Hrec.
  { pose proof (pop_default_value "type" (VStr "point") kw) as Hval.
    rewrite Hpop, Hty in Hval. simpl in Hval. by subst type. }
  assert (kw' !! "steps_ahead" = Some v) as Hst'.
  { pose proof (pop_default_lookup_ne "type" "steps_ahead" (VStr "point") kw) as Hl.
    rewrite Hpop in Hl. simpl in Hl. by rewrite Hl. }
  rewrite (dispatch_no_horizon _ _ _ _ v) by done.
  apply py_contains_recognized in Hrec.
  rewrite Hrec. simpl.
  by destruct (is_multivariate self).
Qed.
End PredictFacts.

Lemma predict_unknown_type_fails_witness :
  preprocess clip_Z (sample_model (FLRG := SampleFLRG) [shift 1] ∅) 5 = Ok 6 /\
  (VStr "median" ∉ recognized_types) /\
  predict clip_Z no_cluster whole_series (sample_model (FLRG := SampleFLRG) [shift 1] ∅)
    capable_methods 5 {[ "type" := VStr "median"; "steps_ahead" := VInt 3 ]}
  = Raise (ValueError "The argument 'type' has an unknown value.").
Proof.
  assert (VStr "median" ∉ recognized_types) as Hunknown.
  { apply (bool_decide_unpack _). vm_compute. exact I. }
  split_and!; [reflexivity|exact Hunknown|].
  apply (predict_unknown_type_fails clip_Z no_cluster whole_series _ _ _ 6 _ (VStr "median")).
  - reflexivity.
  - intros d Hd. vm_compute in Hd. discriminate.
  - reflexivity.
  - exact Hunknown.
  - intros v Hv. vm_compute in Hv. by injection Hv as <-.
Defined.

Lemma predict_without_branch_is_unbound_witness :
  preprocess clip_Z (sample_model (FLRG := SampleFLRG) [shift 1] ∅) 5 = Ok 6 /\
  predict clip_Z no_cluster whole_series (sample_model (FLRG := SampleFLRG) [shift 1] ∅)
    capable_methods 5 {[ "type" := VStr "interval"; "steps_ahead" := VInt 0 ]}
  = Raise (UnboundLocalError "ret").
Proof.
  split; [reflexivity|].
  apply (predict_without_branch_is_unbound clip_Z no_cluster whole_series _ _ _ 6 _ (VInt 0)).
  - reflexivity.
  - intros d Hd. vm_compute in Hd. discriminate.
  - apply (bool_decide_unpack _). vm_compute. exact I.
  - reflexivity.
  - reflexivity.
  - reflexivity.
  - reflexivity.
Defined.

Example predict_negative_horizon_multivariate :
  predict clip_Z no_cluster whole_series (sample_multivariate_model (FLRG := SampleFLRG))
    capable_methods 5 {[ "type" := VStr "multivariate"; "steps_ahead" := VInt (-2) ]}
  = Raise (UnboundLocalError "ret").
Proof. reflexivity. Qed.

Example predict_one_step_passthrough :
  predict clip_Z no_cluster whole_series (sample_model (FLRG := SampleFLRG) [] ∅)
    capable_methods 42 ∅ = Ok 42.
Proof. reflexivity. Qed.

(** C4. With [type = multivariate] and [steps_ahead = 3], [predict] calls
    [forecast_ahead_multivariate(ndata, **kwargs)]: the horizon is not passed
    as the [steps] argument and the call fails to bind it.  With the types
    point, interval and distribution the same horizon reaches the multi-step
    operation, which here answers [100 * 5 + 3]. *)
Theorem predict_multivariate_ahead_omits_steps :
  predict clip_Z no_cluster whole_series (sample_multivariate_model (FLRG := SampleFLRG))
    capable_methods 5 {[ "type" := VStr "multivariate"; "steps_ahead" := VInt 3 ]}
  = Raise (TypeError "missing 1 required positional argument: 'steps'") /\
  Forall (fun type =>
    predict clip_Z no_cluster whole_series (sample_model (FLRG := SampleFLRG) [] ∅)
      capable_methods 5 {[ "type" := VStr type; "steps_ahead" := VInt 3 ]}
    = Ok 503) ["point"; "interval"; "distribution"].
Proof. split; [reflexivity|]. repeat constructor. Qed.

(** ** forecast_ahead *)

Lemma py_slice_from_last {A} (l : list A) (m : Z) :
  1 <= m <= Z.of_nat (length l) ->
  py_slice_from l (- m) = last_elements (Z.to_nat m) l.
Proof.
  intros Hm. unfold py_slice_from, last_elements, slice_bound.
  rewrite bool_decide_eq_true_2 by lia. f_equal. lia.
Qed.

(** With [max_lag = 0] the slice [data[-0:]] is the whole list. *)
Example py_slice_from_minus_zero : py_slice_from [1; 2; 3] (- 0) = [1; 2; 3].
Proof. reflexivity. Qed.

Lemma constant_stub_answer {V} (c : V) log window kwargs :
  constant_stub c log window kwargs = Ok (FScalar c, log ++ [window]).
Proof. reflexivity. Qed.

Lemma stub_windows_S {V} (m : nat) (xs : list V) (c : V) (todo : nat) :
  stub_windows m xs c (S todo)
  = last_elements m xs :: stub_windows m (xs ++ [c]) c todo.
Proof.
  unfold stub_windows. cbn [seq fmap list_fmap]. rewrite app_nil_r. f_equal.
  rewrite <- fmap_S_seq, <- list_fmap_compose.
  apply list_fmap_ext. intros _ k _. simpl. by rewrite <- app_assoc.
Qed.

Section ForecastAheadFacts.
Context {V FLRG St : Type}.
Implicit Types (self : FTS (list V) FLRG) (h : gmap loc (list V)) (kwargs : Kwargs).
Implicit Types (forecast : St -> list V -> Kwargs -> result (forecast_result V * St)) (st : St).

Lemma forecast_ahead_loop_grows forecast self kwargs todo (l : loc) ret st h xs :
  answers forecast kwargs ->
  h !! l = Some xs ->
  exists vs st',
    forecast_ahead_loop forecast self kwargs todo l ret st h
      = Ok (ret ++ vs, st', <[l := xs ++ vs]> h) /\
    length vs = todo.
Proof.
  intros Hf. revert ret st h xs.
  induction todo as [|todo IH]; intros ret st h xs Hl.
  - exists [], st. rewrite !app_nil_r, insert_id by done. done.
  - cbn [forecast_ahead_loop]. rewrite (lookup_total_correct _ _ _ Hl).
    destruct (Hf st (py_slice_from xs (- max_lag self))) as (tmp & st1 & v & -> & Hv).
    cbn [mbind result_bind]. rewrite Hv. cbn [mbind result_bind].
    destruct (IH (ret ++ [v]) st1 (<[l := xs ++ [v]]> h) (xs ++ [v]))
      as (vs & st' & -> & Hlen); [apply lookup_insert_eq|].
    exists (v :: vs), st'. rewrite insert_insert_eq, <- !app_assoc. simpl.
    split; [done|]. by rewrite Hlen.
Qed.

(** C9. With a one-step forecast that always answers, [forecast_ahead] on a
    list of the caller returns the forecasts [ret] and leaves that same list
    extended by [ret], so grown by [steps] elements: the list is not copied.
    On an array the working list is a new one and every list that existed
    before the call keeps its contents. *)
Theorem forecast_ahead_extends_argument forecast self kwargs steps st h
    (Hf : answers forecast kwargs) :
  (forall l xs, h !! l = Some xs ->
     exists ret st',
       forecast_ahead forecast self (ListRef l) steps kwargs st h
         = Ok (ret, st', <[l := xs ++ ret]> h) /\
       length ret = Z.to_nat steps) /\
  (forall xs,
     exists ret st' h',
       forecast_ahead forecast self (NdArray xs) steps kwargs st h = Ok (ret, st', h') /\
       length ret = Z.to_nat steps /\
       h !! fresh (dom h) = None /\
       h' = <[fresh (dom h) := xs ++ ret]> h /\
       forall l ys, h !! l = Some ys -> h' !! l = Some ys).
Proof.
  split.
  - intros l xs Hl. unfold forecast_ahead.
    destruct (forecast_ahead_loop_grows forecast self kwargs (Z.to_nat steps) l [] st h xs Hf Hl)
      as (vs & st' & Heq & Hlen).
    exists vs, st'. by rewrite Heq.
  - intros xs. unfold forecast_ahead.
    set (l := fresh (dom h)).
    assert (h !! l = None) as Hfresh.
    { apply not_elem_of_dom. apply is_fresh. }
    destruct (forecast_ahead_loop_grows forecast self kwargs (Z.to_nat steps) l [] st
                (<[l := xs]> h) xs Hf (lookup_insert_eq _ _ _)) as (vs & st' & Heq & Hlen).
    exists vs, st', (<[l := xs ++ vs]> h).
    rewrite Heq, insert_insert_eq. split_and!; try done.
    intros l' ys Hl'. rewrite lookup_insert_ne; [done|]. congruence.
Qed.

(** C6. Against the one-step stub that always answers the constant [c], with
    [1 <= max_lag <= len(data)]: [forecast_ahead] returns the list of [steps]
    copies of [c]; iteration [k] asks the stub about the last [max_lag]
    elements of the working list, which by then is the input followed by [k]
    copies of [c]; and the working list ends as the input followed by [steps]
    copies of [c]. *)
Theorem forecast_ahead_constant_stub self (c : V) kwargs (data : series V) xs steps log h
    (Hlag : 1 <= max_lag self)
    (Hlen : max_lag self <= Z.of_nat (length xs))
    (Hdata : series_contents h data = Some xs) :
  forecast_ahead (constant_stub c) self data steps kwargs log h
  = Ok (replicate (Z.to_nat steps) c,
        log ++ stub_windows (Z.to_nat (max_lag self)) xs c (Z.to_nat steps),
        <[working_list h data := xs ++ replicate (Z.to_nat steps) c]> h).
Proof.
  assert (Hloop : forall todo (l : loc) ret log h xs,
    max_lag self <= Z.of_nat (length xs) -> h !! l = Some xs ->
    forecast_ahead_loop (constant_stub c) self kwargs todo l ret log h
    = Ok (ret ++ replicate todo c,
          log ++ stub_windows (Z.to_nat (max_lag self)) xs c todo,
          <[l := xs ++ replicate todo c]> h)).
  { clear Hlen Hdata log h xs data. intros todo l.
    induction todo as [|todo IH]; intros ret log h xs Hlen Hl.
    - simpl. rewrite !app_nil_r, insert_id by done. done.
    - cbn [forecast_ahead_loop]. rewrite (lookup_total_correct _ _ _ Hl).
      rewrite constant_stub_answer. cbn [mbind result_bind last_if_sequence].
      rewrite (IH _ _ _ (xs ++ [c])); [|rewrite length_app; simpl; lia|apply lookup_insert_eq].
      rewrite stub_windows_S, insert_insert_eq, py_slice_from_last by lia.
      by rewrite <- !app_assoc. }
  unfold forecast_ahead. destruct data as [l|ys]; simpl in *.
  - rewrite (Hloop _ _ _ _ _ xs) by done. done.
  - injection Hdata as ->.
    rewrite (Hloop _ _ _ _ _ xs); [|done|apply lookup_insert_eq].
    by rewrite insert_insert_eq.
Qed.
End ForecastAheadFacts.

Example forecast_ahead_sample :
  forecast_ahead sum_forecast (lagged_model (FLRG := SampleFLRG) 2) (ListRef 0%nat) 2 ∅ tt
    {[ 0%nat := [1; 2; 3] ]}
  = Ok ([5; 8], tt, {[ 0%nat := [1; 2; 3; 5; 8] ]}).
Proof. by vm_compute. Qed.

Lemma forecast_ahead_extends_argument_witness :
  answers sum_forecast ∅ /\
  exists ret st',
    forecast_ahead sum_forecast (lagged_model (FLRG := SampleFLRG) 2) (ListRef 0%nat) 2 ∅ tt
      {[ 0%nat := [1; 2; 3] ]}
    = Ok (ret, st', <[ 0%nat := [1; 2; 3] ++ ret ]> {[ 0%nat := [1; 2; 3] ]}) /\
    length ret = Z.to_nat 2.
Proof.
  assert (answers sum_forecast ∅) as Hf.
  { intros st window. by eexists _, _, _. }
  split; [exact Hf|].
  destruct (forecast_ahead_extends_argument sum_forecast
              (lagged_model (FLRG := SampleFLRG) 2) ∅ 2 tt {[ 0%nat := [1; 2; 3] ]} Hf)
    as [Hlist _].
  apply (Hlist 0%nat [1; 2; 3]). reflexivity.
Defined.

Lemma forecast_ahead_constant_stub_witness :
  1 <= max_lag (lagged_model (Data := list Z) (FLRG := SampleFLRG) 2) /\
  forecast_ahead (constant_stub 9) (lagged_model (FLRG := SampleFLRG) 2) (ListRef 0%nat) 3 ∅ []
    {[ 0%nat := [1; 2; 3] ]}
  = Ok ([9; 9; 9], [[2; 3]; [3; 9]; [9; 9]], {[ 0%nat := [1; 2; 3; 9; 9; 9] ]}).
Proof.
  split; [simpl; lia|].
  etrans.
  - apply (forecast_ahead_constant_stub (lagged_model (FLRG := SampleFLRG) 2) 9 ∅
             (ListRef 0%nat) [1; 2; 3] 3 [] {[ 0%nat := [1; 2; 3] ]});
      [simpl; lia | simpl; lia | reflexivity].
  - by vm_compute.
Defined.

(** ** fit *)

Lemma range_from_offsets (fuel : nat) (start step : Z) :
  range_from fuel start step = batch_offsets start step fuel.
Proof.
  unfold batch_offsets. revert start. induction fuel as [|fuel IH]; intros start; [done|].
  cbn [range_from seq fmap list_fmap]. rewrite IH. f_equal; [lia|].
  rewrite <- fmap_S_seq, <- list_fmap_compose.
  apply list_fmap_ext. intros _ k _. simpl. lia.
Qed.

Lemma py_slice_take_drop {A} (l : list A) (lo hi : Z) :
  0 <= lo <= hi ->
  py_slice l lo hi = take (Z.to_nat (hi - lo)) (drop (Z.to_nat lo) l).
Proof.
  intros Hb. unfold py_slice, slice_bound.
  rewrite !bool_decide_eq_false_2 by lia.
  destruct (decide (lo <= Z.of_nat (length l))) as [Hlo|Hlo].
  - rewrite (Z.min_l lo) by done.
    destruct (decide (hi <= Z.of_nat (length l))) as [Hhi|Hhi].
    + by rewrite (Z.min_l hi).
    + rewrite (Z.min_r hi) by lia.
      rewrite !take_ge; [done| |]; rewrite length_drop; lia.
  - rewrite !drop_ge by lia. by rewrite !take_nil.
Qed.

Lemma foldM_fmap {A B C} (f : A -> C -> result A) (g : B -> C) (a : A) (l : list B) :
  foldM (fun a b => f a (g b)) a l = foldM f a (g <$> l).
Proof.
  revert a. induction l as [|b l IH]; intros a; [done|].
  simpl. destruct (f a (g b)); [apply IH|done].
Qed.

Lemma foldM_ext_in {A B} (f g : A -> B -> result A) (a : A) (l : list B) :
  (forall a b, b ∈ l -> f a b = g a b) -> foldM f a l = foldM g a l.
Proof.
  revert a. induction l as [|b l IH]; intros a Hfg; [done|].
  simpl. rewrite Hfg by left. destruct (g a b); [|done]. simpl.
  apply IH. intros a' b' Hb'. apply Hfg. by right.
Qed.

Lemma foldM_ext_inv {A B} (P : A -> Prop) (f g : A -> B -> result A) (a : A) (l : list B) :
  P a ->
  (forall a b, b ∈ l -> P a -> f a b = g a b) ->
  (forall a b a', P a -> g a b = Ok a' -> P a') ->
  foldM f a l = foldM g a l.
Proof.
  intros Ha Hfg Hstep. revert a Ha. induction l as [|b l IH]; intros a Ha; [done|].
  simpl. rewrite Hfg by (done || left). destruct (g a b) as [a'|] eqn:Hg; [|done]. simpl.
  apply IH.
  - intros a0 b0 Hb0. apply Hfg. by right.
  - eauto.
Qed.

Section FitFacts.
Context {V St : Type}.
Variable train : St -> list V -> Kwargs -> result St.
Variable persist_obj : St -> pyval -> result St.
Variable order_of : St -> Z.

(** C3, as the code has it. For [order >= 0] and [1 <= num_batches <= n],
    with [batch_size = floor(n / num_batches)], and a [train] and a save that
    leave [self.order] as it is: the batched branch of [fit] calls [train]
    once per offset [order, order + batch_size, ...] below [n], in increasing
    order, each call followed by the save when [batch_save] is set; the
    window of an offset is the part of the data at the positions from
    [offset - order] up to, not including, [offset + batch_size]; and the
    offsets number [ceil((n - order) / batch_size)], none when [n <= order]. *)
Theorem fit_batches_windows (data : list V) num_batches batch_save file_path kwargs st
    (Horder : 0 <= order_of st)
    (Hbatches : 1 <= num_batches <= Z.of_nat (length data))
    (Htrain : forall s window s', train s window kwargs = Ok s' -> order_of s' = order_of s)
    (Hsave : forall s s', persist_obj s file_path = Ok s' -> order_of s' = order_of s) :
  fit_batches train persist_obj order_of data num_batches batch_save file_path kwargs st
  = foldM (fun s window =>
             s' ← train s window kwargs;
             if batch_save then persist_obj s' file_path else Ok s')
      st
      (batch_window (order_of st) (Z.of_nat (length data) / num_batches) data <$>
         batch_offsets (order_of st) (Z.of_nat (length data) / num_batches)
           (batch_count (order_of st) (Z.of_nat (length data))
              (Z.of_nat (length data) / num_batches))).
Proof.
  unfold fit_batches, int_div.
  set (n := Z.of_nat (length data)) in *.
  rewrite bool_decide_eq_false_2 by lia. cbn [mbind result_bind].
  rewrite Z.quot_div_nonneg by lia.
  assert (1 <= n / num_batches) as Hsize.
  { apply Z.div_le_lower_bound; lia. }
  set (bs := n / num_batches) in *.
  unfold py_range. rewrite bool_decide_eq_false_2 by lia.
  rewrite bool_decide_eq_true_2 by lia. cbn [mbind result_bind].
  rewrite range_from_offsets. fold (batch_count (order_of st) n bs).
  rewrite <- foldM_fmap.
  apply (foldM_ext_inv (fun s => order_of s = order_of st)); [done| |].
  - intros s ct Hct Hs. unfold train_batch, train_window, batch_window. rewrite Hs.
    apply list_elem_of_fmap in Hct as (k & -> & _).
    rewrite py_slice_take_drop by nia.
    do 3 f_equal; lia.
  - intros s ct s' Hs Hstep.
    destruct (train s _ kwargs) as [s1|] eqn:Hs1; [|done]. simpl in Hstep.
    apply Htrain in Hs1.
    destruct batch_save; [apply Hsave in Hstep|injection Hstep as <-]; congruence.
Qed.
End FitFacts.

Example fit_batches_offsets_100 :
  batch_offsets 2 (100 / 10) (batch_count 2 100 (100 / 10))
  = [2; 12; 22; 32; 42; 52; 62; 72; 82; 92].
Proof. reflexivity. Qed.

Example fit_batches_log_100 :
  fit_batches recording_train no_persist (fun _ => 2) (count_series 100) 10 false VNone ∅ []
  = Ok ((fun offset => batch_window 2 10 (count_series 100) offset) <$>
          [2; 12; 22; 32; 42; 52; 62; 72; 82; 92]).
Proof. by vm_compute. Qed.

Example fit_batches_first_and_last_window :
  batch_window 2 10 (count_series 100) 2 = count_series 12 /\
  batch_window 2 10 (count_series 100) 92 = [90; 91; 92; 93; 94; 95; 96; 97; 98; 99].
Proof. by vm_compute. Qed.

(** A [train] that raises the order moves the left end of the next window:
    the slice reads [self.order] anew in every iteration. *)
Example fit_batches_order_read_each_batch :
  fit_batches bumping_train no_persist snd (count_series 7) 3 false VNone ∅ ([], 1)
  = Ok ([[0; 1; 2]; [1; 2; 3; 4]; [2; 3; 4; 5; 6]], 4).
Proof. by vm_compute. Qed.

Lemma fit_batches_windows_witness :
  (0 <= 2 /\ 1 <= 10 <= Z.of_nat (length (count_series 100))) /\
  fit_batches recording_train no_persist (fun _ => 2) (count_series 100) 10 false VNone ∅ []
  = Ok (batch_window 2 10 (count_series 100) <$> [2; 12; 22; 32; 42; 52; 62; 72; 82; 92]).
Proof.
  split; [vm_compute; intuition discriminate|].
  etrans.
  - apply (fit_batches_windows recording_train no_persist (fun _ => 2) (count_series 100) 10
             false VNone ∅ []).
    + lia.
    + vm_compute. intuition discriminate.
    + done.
    + done.
  - by vm_compute.
Defined.

(** C3, as the claim words it, fails: on a series of length 11 with order 1
    and [num_batches = 3] the batch size is 3 and [train] is called on four
    windows, at the offsets 1, 4, 7 and 10, not on three. *)
Lemma fit_batches_not_num_batches :
  fit_batches recording_train no_persist (fun _ => 1) (count_series 11) 3 false VNone ∅ []
  = Ok [[0; 1; 2; 3]; [3; 4; 5; 6]; [6; 7; 8; 9]; [9; 10]] /\
  ~ (forall (order : Z) (data : list Z) (num_batches : Z) (log : list (list Z)),
       0 <= order -> 1 <= num_batches <= Z.of_nat (length data) ->
       fit_batches recording_train no_persist (fun _ => order) data num_batches false VNone ∅ []
       = Ok log ->
       length log = Z.to_nat num_batches).
Proof.
  split; [by vm_compute|].
  intros Hclaim.
  specialize (Hclaim 1 (count_series 11) 3 _ ltac:(lia) ltac:(vm_compute; intuition discriminate)
                eq_refl).
  vm_compute in Hclaim. discriminate.
Qed.

(** More batches than samples: the batch size is 0 and [range] refuses it. *)
Lemma fit_batches_more_batches_than_samples {V St} (train : St -> list V -> Kwargs -> result St)
    (persist_obj : St -> pyval -> result St) (order_of : St -> Z) (data : list V) num_batches
    batch_save file_path kwargs st :
  Z.of_nat (length data) < num_batches ->
  fit_batches train persist_obj order_of data num_batches batch_save file_path kwargs st
  = Raise (ValueError "range() arg 3 must not be zero").
Proof.
  intros Hnb. unfold fit_batches, int_div.
  rewrite bool_decide_eq_false_2 by lia. cbn [mbind result_bind].
  rewrite Z.quot_small by lia. reflexivity.
Qed.

(** * Further properties *)

(** ** fuzzy, for any memberships *)

(** X1. Whatever the membership functions return, the membership reported by
    [fuzzy] is at least 0 and at least the membership of every configured
    set, and the answer is either the initial degenerate one or the name and
    membership of a configured set. *)
Theorem fuzzy_dominates (sets : list (string * FuzzySet)) (d : Q) :
  (0 <= best_membership (fuzzy sets d))%Q /\
  Forall (fun e => (membership e.2 d <= best_membership (fuzzy sets d))%Q) sets /\
  (fuzzy sets d = {| best_fuzzyset := ""; best_membership := 0%Q |} \/
   exists key fset, (key, fset) ∈ sets /\
     fuzzy sets d = {| best_fuzzyset := fs_name fset;
                       best_membership := membership fset d |}).
Proof.
  induction sets as [|[k f] l IH] using rev_ind.
  - split_and!; [apply Qle_refl|constructor|by left].
  - destruct IH as (Hzero & Hall & Hwho).
    rewrite fuzzy_snoc. unfold fuzzy_step. simpl.
    destruct (Qle_bool (best_membership (fuzzy l d)) (membership f d)) eqn:Hcmp; simpl.
    + apply Qle_bool_iff in Hcmp. split_and!.
      * eapply Qle_trans; eauto.
      * apply Forall_app. split; [|constructor; [apply Qle_refl|constructor]].
        eapply Forall_impl; [exact Hall|]. intros e He. simpl in He.
        eapply Qle_trans; eauto.
      * right. exists k, f. split; [|done]. apply elem_of_app. right. by left.
    + assert (membership f d < best_membership (fuzzy l d))%Q as Hlt.
      { apply Qnot_le_lt. intros Hle. apply Qle_bool_iff in Hle. congruence. }
      split_and!; [done| |].
      * apply Forall_app. split; [done|]. constructor; [|constructor].
        by apply Qlt_le_weak.
      * destruct Hwho as [Hinit|(k' & f' & Hin & Heq)]; [by left|].
        right. exists k', f'. split; [|done]. apply elem_of_app. by left.
Qed.

Example fuzzy_all_negative :
  fuzzy [("A0", constant_set "low" (-1#2)); ("A1", constant_set "mid" (-1#4))] 7
  = {| best_fuzzyset := ""; best_membership := 0 |}.
Proof. reflexivity. Qed.

(** ** fuzzyfy_instance: missing sets and the effect of the cut *)

Lemma dict_get_missing {A} (d : list (string * A)) (key : string) :
  key ∉ d.*1 -> dict_get d key = Raise (KeyError key).
Proof.
  induction d as [|[k a] d IH]; intros Hnot; [done|].
  simpl in *. apply not_elem_of_cons in Hnot as [Hne Hnot].
  rewrite bool_decide_eq_false_2 by congruence. by apply IH.
Qed.

Lemma fuzzyfy_instance_filter (data_point : Q) (var : Variable_) (alpha_cut : Q) :
  Forall (fun key => exists fset, dict_get (sets (var_partitioner var)) key = Ok fset)
         (ordered_sets (var_partitioner var)) ->
  fuzzyfy_instance data_point var alpha_cut
  = Ok ((fun key => (var_name var, key)) <$>
          List.filter (fun key => above_cut alpha_cut
                                    (membership_at (var_partitioner var) data_point key))
                      (ordered_sets (var_partitioner var))).
Proof.
  intros Hkeys. unfold fuzzyfy_instance. rewrite memberships_ok by done.
  cbn [mbind result_bind]. apply (select_by_position _ _ _ []).
Qed.

(** X2. If a name of [ordered_sets] is not a key of the set mapping, and the
    names before it are, [fuzzyfy_instance] raises [KeyError] for that name,
    whatever the observation and the cut. *)
Theorem fuzzyfy_instance_missing_key (data_point : Q) (var : Variable_) (alpha_cut : Q)
    (before after : list string) (key : string)
    (Hnames : ordered_sets (var_partitioner var) = before ++ key :: after)
    (Hbefore : Forall (fun k => exists fset, dict_get (sets (var_partitioner var)) k = Ok fset)
                      before)
    (Hmissing : key ∉ (sets (var_partitioner var)).*1) :
  fuzzyfy_instance data_point var alpha_cut = Raise (KeyError key).
Proof.
  unfold fuzzyfy_instance. rewrite Hnames.
  assert (mapM (fun k => fset ← dict_get (sets (var_partitioner var)) k;
                         Ok (membership fset data_point)) (before ++ key :: after)
          = Raise (KeyError key)) as ->; [|done].
  clear Hnames.
  induction Hbefore as [|k before [fset Hget] _ IH].
  - cbn [app mapM]. by rewrite dict_get_missing.
  - cbn [app mapM]. rewrite Hget. cbn [mbind result_bind].
    rewrite IH. reflexivity.
Qed.

Lemma fuzzyfy_instance_missing_key_witness :
  fuzzyfy_instance 21
    {| var_name := "load";
       var_partitioner := {| sets := [("set1", constant_set "set1" 1)];
                             ordered_sets := ["set1"; "set2"; "set3"] |} |} 0
  = Raise (KeyError "set2").
Proof.
  apply (fuzzyfy_instance_missing_key 21 _ 0 ["set1"] ["set3"] "set2").
  - reflexivity.
  - repeat constructor. by eexists.
  - apply (bool_decide_unpack _). vm_compute. exact I.
Defined.

Lemma filter_stronger_sublist {A} (p q : A -> bool) (l : list A) :
  (forall a, q a = true -> p a = true) ->
  List.filter q l `sublist_of` List.filter p l.
Proof.
  intros Hqp. induction l as [|a l IH]; simpl; [done|].
  destruct (q a) eqn:Hq.
  - rewrite (Hqp a Hq). by constructor.
  - destruct (p a); [by constructor|done].
Qed.

(** X3. Raising the cut can only remove activations: for [alpha <= beta] the
    result at [beta] is a sublist of the result at [alpha]. *)
Theorem fuzzyfy_instance_cut_monotone (data_point : Q) (var : Variable_) (alpha beta : Q)
    (Hkeys : Forall (fun key => exists fset, dict_get (sets (var_partitioner var)) key = Ok fset)
                    (ordered_sets (var_partitioner var)))
    (Hcut : (alpha <= beta)%Q) :
  exists at_alpha at_beta,
    fuzzyfy_instance data_point var alpha = Ok at_alpha /\
    fuzzyfy_instance data_point var beta = Ok at_beta /\
    at_beta `sublist_of` at_alpha.
Proof.
  eexists _, _. split_and!; [by apply fuzzyfy_instance_filter..|].
  apply fmap_sublist, filter_stronger_sublist.
  intros key Hb. apply above_cut_iff. apply above_cut_iff in Hb.
  eapply Qle_lt_trans; eauto.
Qed.

Lemma fuzzyfy_instance_cut_monotone_witness :
  exists at_alpha at_beta,
    fuzzyfy_instance 21 sample_variable 0 = Ok at_alpha /\
    fuzzyfy_instance 21 sample_variable (1#2) = Ok at_beta /\
    at_beta `sublist_of` at_alpha.
Proof.
  apply (fuzzyfy_instance_cut_monotone 21 sample_variable 0 (1#2)).
  - repeat constructor; eexists; reflexivity.
  - vm_compute. discriminate.
Defined.

(** ** Transformation pipelines: registration order and parameter slots *)

Lemma foldM_app {A B} (f : A -> B -> result A) (a : A) (l1 l2 : list B) :
  foldM f a (l1 ++ l2) = (a' ← foldM f a l1; foldM f a' l2).
Proof.
  revert a. induction l1 as [|b l1 IH]; intros a; [done|].
  simpl. destruct (f a b); [apply IH|done].
Qed.

Lemma py_index_out_of_range {A} (l : list A) (i : Z) :
  Z.of_nat (length l) <= i -> py_index l i = Raise IndexError.
Proof.
  intros Hi. unfold py_index.
  rewrite (bool_decide_eq_false_2 (i < 0)) by lia.
  by rewrite bool_decide_eq_false_2 by lia.
Qed.

Section PipelineFacts.
Context {Data FLRG : Type}.
Implicit Types (self : FTS Data FLRG) (ts : list (Transformation Data)).
Implicit Types (params : list (@Param Data)).

Lemma apply_loop_default params c ts (ndata : Data) :
  0 <= c ->
  (forall i, (Z.to_nat c <= i < Z.to_nat c + length ts)%nat -> params !! i = Some None) ->
  apply_loop params c ts ndata = foldM (fun d t => t_apply t d None) ndata ts.
Proof.
  revert c ndata. induction ts as [|t ts IH]; intros c ndata Hc Hnone; [done|].
  cbn [apply_loop foldM]. rewrite <- (Z2Nat.id c) at 1 by done.
  rewrite (py_index_lookup _ _ None) by (apply Hnone; simpl; lia).
  cbn [mbind result_bind]. destruct (t_apply t ndata None); [|done].
  cbn [mbind result_bind]. apply IH; [lia|].
  intros i Hi. apply Hnone. simpl. lia.
Qed.

(** Without a parameter list every stage receives [None], in registration
    order, and no slot is ever missing. *)
Lemma apply_transformations_default self (data : Data) :
  apply_transformations self data None
  = foldM (fun d t => t_apply t d None) data (transformations self).
Proof.
  unfold apply_transformations. case_bool_decide as Hlen.
  - apply apply_loop_default; [done|]. intros i Hi. simpl in *.
    rewrite list_lookup_fmap.
    destruct (lookup_lt_is_Some_2 (transformations self) i) as [t ->]; [lia|done].
  - destruct (transformations self); [done|]. simpl in Hlen. lia.
Qed.

(** X4. [append_transformation(None)] changes nothing, and after
    [append_transformation(t)] the forward pipeline (called without
    parameters) is the old pipeline followed by [t.apply(_, None)]. *)
Theorem apply_transformations_after_append self (t : Transformation Data) (data : Data) :
  append_transformation self None = self /\
  apply_transformations (append_transformation self (Some t)) data None
  = (r ← apply_transformations self data None; t_apply t r None).
Proof.
  split; [done|]. rewrite !apply_transformations_default. simpl.
  rewrite foldM_app. destruct (foldM _ data (transformations self)); [|done].
  simpl. by destruct (t_apply t a None).
Qed.

Lemma apply_loop_short params c ts (ndata : Data) :
  0 <= c ->
  (Z.to_nat c <= length params < Z.to_nat c + length ts)%nat ->
  (forall t d p, t ∈ ts -> exists r, t_apply t d p = Ok r) ->
  apply_loop params c ts ndata = Raise IndexError.
Proof.
  revert c ndata. induction ts as [|t ts IH]; intros c ndata Hc Hlen Hok.
  - simpl in Hlen. lia.
  - cbn [apply_loop]. destruct (decide (Z.to_nat c = length params)) as [Heq|Hne].
    + by rewrite py_index_out_of_range by lia.
    + destruct (lookup_lt_is_Some_2 params (Z.to_nat c)) as [p Hp]; [lia|].
      rewrite <- (Z2Nat.id c) at 1 by done.
      rewrite (py_index_lookup _ _ _ Hp). cbn [mbind result_bind].
      destruct (Hok t ndata p) as [r ->]; [by left|]. cbn [mbind result_bind].
      apply IH; [lia|simpl in Hlen; lia|].
      intros t' d' p' Hin. apply Hok. by right.
Qed.

(** X5. A parameter list with fewer slots than there are transformations
    makes [apply_transformations] raise [IndexError], once the stages that do
    have a slot have run (here: every stage succeeds on every input). *)
Theorem apply_transformations_short_params self (data : Data) params
    (Hshort : (length params < length (transformations self))%nat)
    (Hok : forall t d p, t ∈ transformations self -> exists r, t_apply t d p = Ok r) :
  apply_transformations self data (Some params) = Raise IndexError.
Proof.
  unfold apply_transformations. rewrite bool_decide_eq_true_2 by lia.
  apply apply_loop_short; [done|simpl; lia|done].
Qed.

Lemma inverse_loop_short params kwargs c ts (data : Data) ndata :
  0 <= c ->
  (Z.to_nat c <= length params < Z.to_nat c + length ts)%nat ->
  (forall t p, t ∈ ts -> exists r, t_inverse t data p kwargs = Ok r) ->
  inverse_loop data params kwargs c ts ndata = Raise IndexError.
Proof.
  revert c ndata. induction ts as [|t ts IH]; intros c ndata Hc Hlen Hok.
  - simpl in Hlen. lia.
  - cbn [inverse_loop]. destruct (decide (Z.to_nat c = length params)) as [Heq|Hne].
    + by rewrite py_index_out_of_range by lia.
    + destruct (lookup_lt_is_Some_2 params (Z.to_nat c)) as [p Hp]; [lia|].
      rewrite <- (Z2Nat.id c) at 1 by done.
      rewrite (py_index_lookup _ _ _ Hp). cbn [mbind result_bind].
      destruct (Hok t p) as [r ->]; [by left|]. cbn [mbind result_bind].
      apply IH; [lia|simpl in Hlen; lia|].
      intros t' p' Hin. apply Hok. by right.
Qed.
End PipelineFacts.

Lemma apply_transformations_short_params_witness :
  apply_transformations (sample_model (FLRG := SampleFLRG) [shift 1; scale 2] ∅) 10
    (Some [None])
  = Raise IndexError.
Proof.
  apply (apply_transformations_short_params
           (sample_model (FLRG := SampleFLRG) [shift 1; scale 2] ∅) 10 [None]).
  - simpl. lia.
  - intros t d p Ht. simpl in Ht.
    apply elem_of_cons in Ht as [->|Ht]; [by eexists|].
    apply list_elem_of_singleton in Ht as ->. by eexists.
Defined.

(** ** predict: the default call, the cluster path, multivariate models *)

Lemma pop_default_rest (k : string) (dflt : pyval) (kw : Kwargs) :
  (pop_default k dflt kw).2 = delete k kw.
Proof.
  unfold pop_default. destruct (kw !! k) eqn:Hk; simpl; [done|].
  by rewrite delete_id.
Qed.

Section PredictMore.
Context {Data FLRG : Type}.
Variable np_clip : Data -> Q -> Q -> result Data.
Variable distributed_predict :
  FTS Data FLRG -> Kwargs -> pyval -> Data -> pyval -> result Data.
Variable data_from : Data -> Z -> result Data.
Implicit Types (self : FTS Data FLRG) (methods : Methods Data) (kwargs : Kwargs).

(** [predict(data)] without options on a univariate model. *)
Lemma predict_default_call self methods data :
  is_multivariate self = false ->
  predict np_clip distributed_predict data_from self methods data ∅
  = (ndata ← preprocess np_clip self data;
     r ← impl_forecast methods ndata ∅;
     tail ← data_from data (max_lag self - 1);
     apply_inverse_transformations self r (Some [Some tail]) {[ "type" := VStr "point" ]}).
Proof.
  intros Hmv. unfold predict.
  destruct (preprocess np_clip self data) as [nd|e]; [|done]. cbn [mbind result_bind].
  unfold predict_local, pop_default, dispatch, call_one_step.
  rewrite !lookup_empty. simpl. rewrite ?lookup_empty. simpl.
  destruct (impl_forecast methods nd ∅) as [r|e]; [|done]. simpl.
  rewrite Hmv. simpl. destruct (data_from data (max_lag self - 1)) as [tail|e]; [|done].
  simpl. unfold call_inverse.
  rewrite !lookup_insert_ne, !lookup_empty by done.
  rewrite !(bool_decide_eq_false_2 (is_Some None)) by (by intros [? ?]).
  by rewrite insert_empty.
Qed.

(** X6. On a univariate model without transformations, [predict(data)]
    called without options returns the one-step point forecast of the data
    (clipped into the bounds when [uod_clip] is set) as it is; the tail
    [data[max_lag - 1:]] is still computed, so a failure there is the
    failure of the call. *)
Theorem predict_default_passthrough self methods data
    (Hmv : is_multivariate self = false)
    (Hts : transformations self = []) :
  predict np_clip distributed_predict data_from self methods data ∅
  = (ndata ← (if uod_clip self
              then np_clip data (original_min self) (original_max self)
              else Ok data);
     r ← impl_forecast methods ndata ∅;
     _ ← data_from data (max_lag self - 1);
     Ok r).
Proof.
  rewrite predict_default_call by done. unfold preprocess. rewrite Hmv.
  rewrite apply_transformations_none by done. cbn [mbind result_bind].
  destruct (if uod_clip self then _ else _) as [nd|e]; [|done]. cbn [mbind result_bind].
  destruct (impl_forecast methods nd ∅) as [r|e]; [|done]. cbn [mbind result_bind].
  destruct (data_from data (max_lag self - 1)) as [tail|e]; [|done]. cbn [mbind result_bind].
  by apply apply_inverse_transformations_none.
Qed.

(** X7. On a univariate model with two or more transformations,
    [predict(data)] called without options cannot return: it hands the inverse
    pipeline a parameter list of one slot, [[data[max_lag - 1:]]], so once the
    forecast, the tail and the inverse calls themselves succeed, the second
    stage raises [IndexError]. *)
Theorem predict_default_pipeline_too_long self methods data ndata r tail
    (Hmv : is_multivariate self = false)
    (Hlen : (2 <= length (transformations self))%nat)
    (Hpre : preprocess np_clip self data = Ok ndata)
    (Hforecast : impl_forecast methods ndata ∅ = Ok r)
    (Htail : data_from data (max_lag self - 1) = Ok tail)
    (Hinverse : forall t p, t ∈ transformations self ->
                  exists x, t_inverse t r p {[ "type" := VStr "point" ]} = Ok x) :
  predict np_clip distributed_predict data_from self methods data ∅ = Raise IndexError.
Proof.
  rewrite predict_default_call by done. rewrite Hpre. cbn [mbind result_bind].
  rewrite Hforecast. cbn [mbind result_bind]. rewrite Htail. cbn [mbind result_bind].
  unfold apply_inverse_transformations. rewrite bool_decide_eq_true_2 by lia.
  rewrite inverse_loop_short; [done|done| |].
  - rewrite length_reverse. simpl. lia.
  - intros t p Ht. apply Hinverse. by apply elem_of_reverse.
Qed.

(** X8. With [distributed] set to something other than [None] and [False],
    the work goes to [Util.distributed_predict] with the node list defaulting
    to [['127.0.0.1']] and the batch count to 10.  A multivariate model
    returns its answer; a univariate model then reads the local [type], which
    only the other path assigns, and raises [UnboundLocalError]. *)
Theorem predict_distributed self methods data ndata kwargs d
    (Hpre : preprocess np_clip self data = Ok ndata)
    (Hd : kwargs !! "distributed" = Some d)
    (Hnone : d <> VNone)
    (Hfalse : py_eq d (VBool false) = false) :
  predict np_clip distributed_predict data_from self methods data kwargs
  = (ret ← distributed_predict self (delete "distributed" kwargs)
             (default (VStrList ["127.0.0.1"]) (kwargs !! "nodes")) ndata
             (default (VInt 10) (kwargs !! "num_batches"));
     if is_multivariate self then Ok ret else Raise (UnboundLocalError "type")).
Proof.
  unfold predict. rewrite Hpre. cbn [mbind result_bind].
  unfold pop_default. rewrite Hd.
  rewrite (bool_decide_eq_false_2 (d = VNone)) by done. rewrite Hfalse. simpl.
  rewrite !lookup_delete_ne by done.
  destruct (distributed_predict _ _ _ _ _) as [ret|e]; [|done]. simpl.
  by destruct (is_multivariate self).
Qed.

(** X9. On the non-distributed path a multivariate model gets neither
    transformations nor clipping nor an inverse pipeline: the operation chosen
    by the dispatch receives the caller's data and its result is returned as
    it is. *)
Theorem predict_multivariate_untouched self methods data kwargs
    (Hmv : is_multivariate self = true)
    (Hlocal : runs_locally kwargs)
    (Htype : default (VStr "point") (kwargs !! "type") ∈ recognized_types) :
  predict np_clip distributed_predict data_from self methods data kwargs
  = (ret ← dispatch methods data (default (VStr "point") (kwargs !! "type"))
             (drop_reserved kwargs);
     read_local "ret" ret).
Proof.
  rewrite (predict_on_local_path _ _ _ _ _ _ data) by (done || by unfold preprocess; rewrite Hmv).
  rewrite Hmv. rewrite pop_default_rest. unfold predict_local.
  rewrite (surjective_pairing (pop_default "type" _ _)).
  rewrite pop_default_value, pop_default_rest, lookup_delete_ne by done.
  fold (drop_reserved kwargs).
  destruct (dispatch _ _ _ _) as [ret|e]; [|done]. cbn [mbind result_bind].
  apply py_contains_recognized in Htype. rewrite Htype. done.
Qed.



(** X11. On the [FTS] base class every one-step operation is unsupported:
    with a recognized type and no horizon, [predict] raises
    [NotImplementedError]. *)
Theorem predict_base_class_unsupported self forecast_ahead data ndata kwargs
    (Hpre : preprocess np_clip self data = Ok ndata)
    (Hlocal : runs_locally kwargs)
    (Htype : default (VStr "point") (kwargs !! "type") ∈ recognized_types)
    (Hsteps : kwargs !! "steps_ahead" = None)
    (Hself : kwargs !! "self" = None)
    (Hdata : kwargs !! "data" = None) :
  exists msg,
    predict np_clip distributed_predict data_from self (base_methods forecast_ahead) data kwargs
    = Raise (NotImplementedError msg).
Proof.
  rewrite (predict_on_local_path _ _ _ _ _ _ ndata) by done.
  rewrite pop_default_rest. unfold predict_local.
  rewrite (surjective_pairing (pop_default "type" _ _)).
  rewrite pop_default_value, pop_default_rest, lookup_delete_ne by done.
  set (kw := delete "type" (delete "distributed" kwargs)).
  assert (kw !! "steps_ahead" = None /\ kw !! "self" = None /\ kw !! "data" = None)
    as (Hs & Hse & Hda).
  { unfold kw. by rewrite !lookup_delete_ne by done. }
  unfold dispatch, call_one_step. rewrite Hs, Hse, Hda. simpl.
  repeat (apply elem_of_cons in Htype as [->|Htype]); [by eexists..|].
  by apply elem_of_nil in Htype.
Qed.
End PredictMore.

Lemma predict_default_passthrough_witness :
  predict clip_Z no_cluster whole_series (sample_model (FLRG := SampleFLRG) [] ∅)
    capable_methods 42 ∅ = Ok 42.
Proof.
  etrans.
  - by apply (predict_default_passthrough clip_Z no_cluster whole_series
                (sample_model (FLRG := SampleFLRG) [] ∅) capable_methods 42).
  - reflexivity.
Defined.

Lemma predict_default_pipeline_too_long_witness :
  predict clip_Z no_cluster whole_series (sample_model (FLRG := SampleFLRG) [shift 1; scale 2] ∅)
    capable_methods 5 ∅ = Raise IndexError.
Proof.
  apply (predict_default_pipeline_too_long clip_Z no_cluster whole_series
           (sample_model (FLRG := SampleFLRG) [shift 1; scale 2] ∅) capable_methods 5 12 12 5).
  - reflexivity.
  - simpl. lia.
  - reflexivity.
  - reflexivity.
  - reflexivity.
  - intros t p Ht. simpl in Ht.
    apply elem_of_cons in Ht as [->|Ht]; [by eexists|].
    apply list_elem_of_singleton in Ht as ->. by eexists.
Defined.

Lemma predict_distributed_witness :
  predict clip_Z (fun _ _ _ d _ => Ok (d + 1)) whole_series
    (sample_model (FLRG := SampleFLRG) [] ∅) capable_methods 5 {[ "distributed" := VBool true ]}
  = Raise (UnboundLocalError "type").
Proof.
  etrans.
  - apply (predict_distributed clip_Z (fun _ _ _ d _ => Ok (d + 1)) whole_series
             (sample_model (FLRG := SampleFLRG) [] ∅) capable_methods 5 5
             {[ "distributed" := VBool true ]} (VBool true)); done.
  - reflexivity.
Defined.

Lemma predict_multivariate_untouched_witness :
  predict clip_Z no_cluster whole_series
    (set_transformations (sample_multivariate_model (FLRG := SampleFLRG)) [shift 1; scale 2])
    capable_methods 5 {[ "type" := VStr "multivariate" ]}
  = Ok 5.
Proof.
  etrans.
  - apply (predict_multivariate_untouched clip_Z no_cluster whole_series
             (set_transformations (sample_multivariate_model (FLRG := SampleFLRG))
                [shift 1; scale 2])
             capable_methods 5 {[ "type" := VStr "multivariate" ]}).
    + reflexivity.
    + intros d Hd. vm_compute in Hd. discriminate.
    + apply (bool_decide_unpack _). vm_compute. exact I.
  - reflexivity.
Defined.

Lemma predict_base_class_unsupported_witness :
  exists msg,
    predict clip_Z no_cluster whole_series (sample_model (FLRG := SampleFLRG) [shift 1] ∅)
      (base_methods (fun d _ _ => Ok d)) 5 {[ "type" := VStr "interval" ]}
    = Raise (NotImplementedError msg).
Proof.
  apply (predict_base_class_unsupported clip_Z no_cluster whole_series
           (sample_model (FLRG := SampleFLRG) [shift 1] ∅) (fun d _ _ => Ok d) 5 6
           {[ "type" := VStr "interval" ]}).
  - reflexivity.
  - intros d Hd. vm_compute in Hd. discriminate.
  - apply (bool_decide_unpack _). vm_compute. exact I.
  - reflexivity.
  - reflexivity.
  - reflexivity.
Defined.

(** ** forecast_ahead: horizons, continuation, dependence on the tail *)

Lemma last_elements_snoc {A} (m : nat) (xs : list A) (v : A) :
  (1 <= m <= length xs)%nat ->
  last_elements m (xs ++ [v]) = drop 1 (last_elements m xs) ++ [v].
Proof.
  intros Hm. unfold last_elements. rewrite length_app. simpl.
  rewrite drop_drop, drop_app_le by lia. do 2 f_equal. lia.
Qed.

Section ForecastAheadMore.
Context {V FLRG St : Type}.
Implicit Types (self : FTS (list V) FLRG) (h : gmap loc (list V)) (kwargs : Kwargs).
Implicit Types (forecast : St -> list V -> Kwargs -> result (forecast_result V * St)) (st : St).

Lemma forecast_ahead_loop_prefix forecast self kwargs todo (l : loc) ret st h :
  forecast_ahead_loop forecast self kwargs todo l ret st h
  = ('(r, st', h') ← forecast_ahead_loop forecast self kwargs todo l [] st h;
     Ok (ret ++ r, st', h')).
Proof.
  revert ret st h. induction todo as [|todo IH]; intros ret st h.
  - simpl. by rewrite app_nil_r.
  - cbn [forecast_ahead_loop].
    destruct (forecast st _ kwargs) as [[tmp st1]|e]; [|done]. cbn [mbind result_bind].
    destruct (last_if_sequence tmp) as [v|e]; [|done]. cbn [mbind result_bind app].
    rewrite (IH (ret ++ [v])), (IH [v]).
    destruct (forecast_ahead_loop _ _ _ _ _ [] _ _) as [[[r st'] h']|e]; [|done].
    cbn [mbind result_bind]. by rewrite <- app_assoc.
Qed.

Lemma forecast_ahead_loop_add forecast self kwargs a b (l : loc) ret st h :
  forecast_ahead_loop forecast self kwargs (a + b) l ret st h
  = ('(r, st', h') ← forecast_ahead_loop forecast self kwargs a l ret st h;
     forecast_ahead_loop forecast self kwargs b l r st' h').
Proof.
  revert ret st h. induction a as [|a IH]; intros ret st h; [done|].
  cbn [Nat.add forecast_ahead_loop].
  destruct (forecast st _ kwargs) as [[tmp st1]|e]; [|done]. cbn [mbind result_bind].
  destruct (last_if_sequence tmp) as [v|e]; [|done]. cbn [mbind result_bind].
  apply IH.
Qed.

(** X12. Forecasting [a + b] steps on a list is forecasting [a] steps and
    then [b] more steps on the same list, which the first call has extended;
    the forecasts are those of the two calls, in order. *)
Theorem forecast_ahead_continues forecast self kwargs (l : loc) a b st h
    (Ha : 0 <= a) (Hb : 0 <= b) :
  forecast_ahead forecast self (ListRef l) (a + b) kwargs st h
  = ('(r1, st1, h1) ← forecast_ahead forecast self (ListRef l) a kwargs st h;
     '(r2, st2, h2) ← forecast_ahead forecast self (ListRef l) b kwargs st1 h1;
     Ok (r1 ++ r2, st2, h2)).
Proof.
  unfold forecast_ahead. rewrite Z2Nat.inj_add by done.
  rewrite forecast_ahead_loop_add.
  destruct (forecast_ahead_loop _ _ _ (Z.to_nat a) _ _ _ _) as [[[r1 st1] h1]|e]; [|done].
  cbn [mbind result_bind]. apply forecast_ahead_loop_prefix.
Qed.

(** A horizon of zero or less is not an error: nothing is forecast,
    [forecast] is not called, and the model and the caller's list are left
    as they were. *)
Theorem forecast_ahead_no_steps forecast self kwargs (l : loc) steps st h
    (Hsteps : steps <= 0) :
  forecast_ahead forecast self (ListRef l) steps kwargs st h = Ok ([], st, h).
Proof. unfold forecast_ahead. by rewrite Z2Nat.nonpos by done. Qed.

(** X13. A one-step forecast that answers an empty list makes the first
    iteration fail with [IndexError] (from [tmp[-1]]). *)
Theorem forecast_ahead_empty_answer forecast self kwargs (l : loc) steps st st' h
    (Hsteps : 1 <= steps)
    (Hempty : forecast st (py_slice_from (h !!! l) (- max_lag self)) kwargs = Ok (FSeq [], st')) :
  forecast_ahead forecast self (ListRef l) steps kwargs st h = Raise IndexError.
Proof.
  unfold forecast_ahead.
  destruct (Z.to_nat steps) as [|todo] eqn:Hn; [lia|].
  cbn [forecast_ahead_loop]. by rewrite Hempty.
Qed.

Lemma forecast_ahead_loop_tail_only forecast self kwargs todo (l1 l2 : loc) ret st h1 h2 xs ys :
  1 <= max_lag self ->
  h1 !! l1 = Some xs -> h2 !! l2 = Some ys ->
  max_lag self <= Z.of_nat (length xs) -> max_lag self <= Z.of_nat (length ys) ->
  last_elements (Z.to_nat (max_lag self)) xs = last_elements (Z.to_nat (max_lag self)) ys ->
  forecasts_and_state (forecast_ahead_loop forecast self kwargs todo l1 ret st h1)
  = forecasts_and_state (forecast_ahead_loop forecast self kwargs todo l2 ret st h2).
Proof.
  intros Hlag. revert ret st h1 h2 xs ys.
  induction todo as [|todo IH]; intros ret st h1 h2 xs ys Hx Hy Hlx Hly Htail; [done|].
  cbn [forecast_ahead_loop].
  rewrite (lookup_total_correct _ _ _ Hx), (lookup_total_correct _ _ _ Hy).
  rewrite !py_slice_from_last by lia. rewrite Htail.
  destruct (forecast st _ kwargs) as [[tmp st1]|e]; [|done]. cbn [mbind result_bind].
  destruct (last_if_sequence tmp) as [v|e]; [|done]. cbn [mbind result_bind].
  apply (IH _ _ _ _ (xs ++ [v]) (ys ++ [v])).
  - apply lookup_insert_eq.
  - apply lookup_insert_eq.
  - rewrite length_app. simpl. lia.
  - rewrite length_app. simpl. lia.
  - rewrite !last_elements_snoc by lia. by rewrite Htail.
Qed.

(** X14. With [max_lag >= 1], the forecasts depend on the input only through
    its last [max_lag] elements: two lists, each of at least [max_lag]
    elements, that end in the same [max_lag] elements give the same forecasts
    and leave the model in the same state. *)
Theorem forecast_ahead_tail_only forecast self kwargs steps (l1 l2 : loc) st h1 h2 xs ys
    (Hlag : 1 <= max_lag self)
    (Hx : h1 !! l1 = Some xs)
    (Hy : h2 !! l2 = Some ys)
    (Hlenx : max_lag self <= Z.of_nat (length xs))
    (Hleny : max_lag self <= Z.of_nat (length ys))
    (Htail : last_elements (Z.to_nat (max_lag self)) xs
             = last_elements (Z.to_nat (max_lag self)) ys) :
  forecasts_and_state (forecast_ahead forecast self (ListRef l1) steps kwargs st h1)
  = forecasts_and_state (forecast_ahead forecast self (ListRef l2) steps kwargs st h2).
Proof. unfold forecast_ahead. by eapply forecast_ahead_loop_tail_only. Qed.
End ForecastAheadMore.

Lemma forecast_ahead_continues_witness :
  forecast_ahead sum_forecast (lagged_model (FLRG := SampleFLRG) 2) (ListRef 0%nat) (1 + 2) ∅ tt
    {[ 0%nat := [1; 2; 3] ]}
  = Ok ([5] ++ [8; 13], tt, {[ 0%nat := [1; 2; 3; 5; 8; 13] ]}).
Proof.
  etrans.
  - apply (forecast_ahead_continues sum_forecast (lagged_model (FLRG := SampleFLRG) 2) ∅
             0%nat 1 2 tt {[ 0%nat := [1; 2; 3] ]}); lia.
  - by vm_compute.
Defined.

Lemma forecast_ahead_no_steps_witness :
  forecast_ahead sum_forecast (lagged_model (FLRG := SampleFLRG) 2) (ListRef 0%nat) (-3) ∅ tt
    {[ 0%nat := [1; 2; 3] ]}
  = Ok ([], tt, {[ 0%nat := [1; 2; 3] ]}).
Proof.
  apply (forecast_ahead_no_steps sum_forecast (lagged_model (FLRG := SampleFLRG) 2) ∅
           0%nat (-3) tt {[ 0%nat := [1; 2; 3] ]}). lia.
Defined.

Lemma forecast_ahead_empty_answer_witness :
  forecast_ahead (fun st _ _ => Ok (FSeq [], st)) (lagged_model (FLRG := SampleFLRG) 2)
    (ListRef 0%nat) 2 ∅ tt {[ 0%nat := [1; 2; 3] ]}
  = Raise IndexError.
Proof.
  apply (forecast_ahead_empty_answer (fun st _ _ => Ok (FSeq [], st))
           (lagged_model (FLRG := SampleFLRG) 2) ∅ 0%nat 2 tt tt {[ 0%nat := [1; 2; 3] ]}).
  - lia.
  - reflexivity.
Defined.

Lemma forecast_ahead_tail_only_witness :
  forecasts_and_state
    (forecast_ahead sum_forecast (lagged_model (FLRG := SampleFLRG) 2) (ListRef 0%nat) 3 ∅ tt
       {[ 0%nat := [1; 2; 3] ]})
  = forecasts_and_state
      (forecast_ahead sum_forecast (lagged_model (FLRG := SampleFLRG) 2) (ListRef 1%nat) 3 ∅ tt
         {[ 1%nat := [7; 7; 7; 2; 3] ]}).
Proof.
  apply (forecast_ahead_tail_only sum_forecast (lagged_model (FLRG := SampleFLRG) 2) ∅ 3
           0%nat 1%nat tt {[ 0%nat := [1; 2; 3] ]} {[ 1%nat := [7; 7; 7; 2; 3] ]}
           [1; 2; 3] [7; 7; 7; 2; 3]);
    try reflexivity; simpl; lia.
Defined.

(** ** fit: what the batches see *)

Lemma recording_log {V} (batch_save : bool) (file_path : pyval) (kwargs : Kwargs)
    (log windows : list (list V)) :
  foldM (train_window recording_train no_persist batch_save file_path kwargs) log windows
  = Ok (log ++ windows).
Proof.
  revert log. induction windows as [|w ws IH]; intros log; simpl.
  - by rewrite app_nil_r.
  - unfold train_window at 1, recording_train at 1, no_persist. simpl.
    destruct batch_save; simpl; rewrite IH; by rewrite <- app_assoc.
Qed.

Lemma batch_offsets_lookup (order batch_size : Z) (count k : nat) :
  (k < count)%nat ->
  batch_offsets order batch_size count !! k = Some (order + Z.of_nat k * batch_size).
Proof.
  intros Hk. unfold batch_offsets. rewrite list_lookup_fmap.
  by rewrite lookup_seq_lt.
Qed.

Section FitMore.
Context {V St : Type}.
Variable train : St -> list V -> Kwargs -> result St.
Variable persist_obj : St -> pyval -> result St.
Variable order_of : St -> Z.

(** The batched branch as a fold over its windows, for hooks that leave the
    order alone. *)
Lemma fit_batches_unfold (data : list V) num_batches batch_save file_path kwargs st :
  0 <= order_of st -> 1 <= num_batches <= Z.of_nat (length data) ->
  (forall s window s', train s window kwargs = Ok s' -> order_of s' = order_of s) ->
  (forall s s', persist_obj s file_path = Ok s' -> order_of s' = order_of s) ->
  fit_batches train persist_obj order_of data num_batches batch_save file_path kwargs st
  = foldM (train_window train persist_obj batch_save file_path kwargs) st
      (batch_window (order_of st) (Z.of_nat (length data) / num_batches) data <$>
         batch_offsets (order_of st) (Z.of_nat (length data) / num_batches)
           (batch_count (order_of st) (Z.of_nat (length data))
              (Z.of_nat (length data) / num_batches))).
Proof.
  intros Horder Hbatches Htrain Hsave. unfold fit_batches, int_div.
  set (n := Z.of_nat (length data)) in *.
  rewrite bool_decide_eq_false_2 by lia. cbn [mbind result_bind].
  rewrite Z.quot_div_nonneg by lia.
  assert (1 <= n / num_batches) as Hsize by (apply Z.div_le_lower_bound; lia).
  set (bs := n / num_batches) in *.
  unfold py_range. rewrite bool_decide_eq_false_2 by lia.
  rewrite bool_decide_eq_true_2 by lia. cbn [mbind result_bind].
  rewrite range_from_offsets. fold (batch_count (order_of st) n bs).
  rewrite <- foldM_fmap.
  apply (foldM_ext_inv (fun s => order_of s = order_of st)); [done| |].
  - intros s ct Hct Hs. unfold train_batch, batch_window. rewrite Hs.
    apply list_elem_of_fmap in Hct as (k & -> & _).
    rewrite py_slice_take_drop by nia.
    do 3 f_equal; lia.
  - intros s ct s' Hs Hstep. unfold train_window in Hstep.
    destruct (train s _ kwargs) as [s1|] eqn:Hs1; [|done]. simpl in Hstep.
    apply Htrain in Hs1.
    destruct batch_save; [apply Hsave in Hstep|injection Hstep as <-]; congruence.
Qed.

(** X15. A series no longer than the order is not trained on at all: the
    offsets start at [order], which is already past the data, so the batched
    branch returns with the model untouched and no error. *)
Theorem fit_batches_short_series (data : list V) num_batches batch_save file_path
    kwargs st
    (Hbatches : 1 <= num_batches <= Z.of_nat (length data))
    (Hshort : Z.of_nat (length data) <= order_of st) :
  fit_batches train persist_obj order_of data num_batches batch_save file_path kwargs st = Ok st.
Proof.
  unfold fit_batches, int_div.
  set (n := Z.of_nat (length data)) in *.
  rewrite bool_decide_eq_false_2 by lia. cbn [mbind result_bind].
  rewrite Z.quot_div_nonneg by lia.
  assert (1 <= n / num_batches) as Hsize by (apply Z.div_le_lower_bound; lia).
  unfold py_range. rewrite bool_decide_eq_false_2 by lia.
  rewrite bool_decide_eq_true_2 by lia. cbn [mbind result_bind].
  rewrite Z2Nat.nonpos; [done|].
  apply Z.lt_succ_r, Z.div_lt_upper_bound; lia.
Qed.

(** X16. The batch count is checked by arithmetic only: 0 raises
    [ZeroDivisionError], and more batches than samples give a batch size of
    0, which [range] refuses with [ValueError]; in both cases before anything
    is trained. *)
Theorem fit_batches_bad_batch_count (data : list V) num_batches batch_save file_path
    kwargs st :
  (num_batches = 0 ->
   fit_batches train persist_obj order_of data num_batches batch_save file_path kwargs st
   = Raise ZeroDivisionError) /\
  (Z.of_nat (length data) < num_batches ->
   fit_batches train persist_obj order_of data num_batches batch_save file_path kwargs st
   = Raise (ValueError "range() arg 3 must not be zero")).
Proof.
  split.
  - intros ->. reflexivity.
  - intros Hnb. unfold fit_batches, int_div.
    rewrite bool_decide_eq_false_2 by lia. cbn [mbind result_bind].
    by rewrite Z.quot_small by lia.
Qed.

(** X17. With [num_batches = 1] and [0 <= order < n] the batched branch
    makes the single call [train(data)] on the whole series and then, when
    [batch_save] is set, saves the model.  So it is the unbatched branch when
    [batch_save] is off, and the unbatched branch followed by the save when it
    is on. *)
Theorem fit_batches_single_batch (data : list V) batch_save file_path kwargs st
    (Horder : 0 <= order_of st < Z.of_nat (length data)) :
  fit_batches train persist_obj order_of data 1 batch_save file_path kwargs st
  = (st' ← train st data kwargs;
     if batch_save then persist_obj st' file_path else Ok st') /\
  fit_train train persist_obj order_of data (Some 1) batch_save file_path kwargs st
  = (st' ← fit_train train persist_obj order_of data None batch_save file_path kwargs st;
     if batch_save then persist_obj st' file_path else Ok st').
Proof.
  assert (fit_batches train persist_obj order_of data 1 batch_save file_path kwargs st
          = (st' ← train st data kwargs;
             if batch_save then persist_obj st' file_path else Ok st')) as Hone; [|done].
  unfold fit_batches, int_div.
  set (n := Z.of_nat (length data)) in *.
  rewrite bool_decide_eq_false_2 by lia. cbn [mbind result_bind].
  rewrite Z.quot_1_r.
  unfold py_range. rewrite bool_decide_eq_false_2 by lia.
  rewrite bool_decide_eq_true_2 by lia. cbn [mbind result_bind].
  replace ((n - order_of st + n - 1) / n) with 1.
  2:{ replace (n - order_of st + n - 1) with (1 * n + (n - order_of st - 1)) by lia.
      rewrite Z.div_add_l, Z.div_small by lia. done. }
  unfold train_batch, train_window.
  change (Z.to_nat 1) with 1%nat. cbn [range_from foldM].
  rewrite py_slice_take_drop by lia.
  match goal with |- context [drop ?k data] => replace k with 0%nat by lia end.
  rewrite drop_0, take_ge by (subst n; lia).
  destruct (train st data kwargs) as [st1|]; [|done]. cbn [mbind result_bind].
  by destruct (if batch_save then _ else _).
Qed.
End FitMore.

Lemma fit_batches_short_series_witness :
  fit_batches recording_train no_persist (fun _ => 5) (count_series 4) 2 false VNone ∅ []
  = Ok [].
Proof.
  apply (fit_batches_short_series recording_train no_persist (fun _ => 5) (count_series 4) 2
           false VNone ∅ []); vm_compute; intuition discriminate.
Defined.

Lemma fit_batches_single_batch_witness :
  fit_batches recording_train marking_persist (fun _ => 2) (count_series 6) 1 true VNone ∅ []
  = Ok [count_series 6; []] /\
  fit_train recording_train marking_persist (fun _ => 2) (count_series 6) None true VNone ∅ []
  = Ok [count_series 6].
Proof.
  split; [|reflexivity].
  etrans.
  - apply (fit_batches_single_batch recording_train marking_persist (fun _ => 2)
             (count_series 6) true VNone ∅ []).
    vm_compute. intuition discriminate.
  - reflexivity.
Defined.

Section FitWindows.
Context {V : Type}.

Lemma fit_batches_recorded order (data : list V) num_batches :
  0 <= order -> 1 <= num_batches <= Z.of_nat (length data) ->
  fit_batches recording_train no_persist (fun _ => order) data num_batches false VNone ∅ []
  = Ok (batch_window order (Z.of_nat (length data) / num_batches) data <$>
          batch_offsets order (Z.of_nat (length data) / num_batches)
            (batch_count order (Z.of_nat (length data))
               (Z.of_nat (length data) / num_batches))).
Proof.
  intros Horder Hnb. rewrite fit_batches_unfold by done. by rewrite recording_log.
Qed.

(** X18. When the series is longer than the order, batched training sees
    every sample: sample [i] of the data sits in window [k] at position [j]
    for some [k] and [j] with [i = k * batch_size + j]. *)
Theorem fit_batches_covers_series order (data : list V) num_batches
    (Horder : 0 <= order < Z.of_nat (length data))
    (Hbatches : 1 <= num_batches <= Z.of_nat (length data)) :
  exists log,
    fit_batches recording_train no_persist (fun _ => order) data num_batches false VNone ∅ []
    = Ok log /\
    forall i x, data !! i = Some x ->
      exists k j w, log !! k = Some w /\ w !! j = Some x /\
        (i = k * Z.to_nat (Z.of_nat (length data) / num_batches) + j)%nat.
Proof.
  eexists. split; [apply fit_batches_recorded; lia|].
  intros i x Hi. pose proof (lookup_lt_Some _ _ _ Hi) as Hlt.
  set (n := Z.of_nat (length data)) in *.
  assert (1 <= n / num_batches) as Hsize by (apply Z.div_le_lower_bound; lia).
  set (bs := n / num_batches) in *.
  set (q := (n - order + bs - 1) / bs).
  assert (n - order <= bs * q) as Hq.
  { pose proof (Z.mul_succ_div_gt (n - order + bs - 1) bs ltac:(lia)). fold q in H. lia. }
  assert (1 <= q) as Hq1.
  { apply Z.div_le_lower_bound; lia. }
  set (kz := Z.min (Z.of_nat i / bs) (q - 1)).
  assert (0 <= kz <= q - 1) as Hkz.
  { unfold kz. pose proof (Z.div_pos (Z.of_nat i) bs ltac:(lia) ltac:(lia)). lia. }
  assert (kz * bs <= Z.of_nat i) as Hlow.
  { pose proof (Z.mul_div_le (Z.of_nat i) bs ltac:(lia)).
    assert (kz <= Z.of_nat i / bs) by (unfold kz; lia). nia. }
  assert (Z.of_nat i < order + (kz + 1) * bs) as Hhigh.
  { destruct (Z.min_spec (Z.of_nat i / bs) (q - 1)) as [[_ Hmin]|[_ Hmin]]; fold kz in Hmin.
    - pose proof (Z.mul_succ_div_gt (Z.of_nat i) bs ltac:(lia)). rewrite Hmin. nia.
    - rewrite Hmin. nia. }
  exists (Z.to_nat kz), (i - Z.to_nat (kz * bs))%nat, (batch_window order bs data (order + kz * bs)).
  split_and!.
  - rewrite list_lookup_fmap, batch_offsets_lookup by (unfold batch_count; fold q; lia).
    simpl. do 3 f_equal. lia.
  - unfold batch_window. rewrite lookup_take_lt by lia. rewrite lookup_drop.
    rewrite <- Hi. f_equal. lia.
  - nia.
Qed.

(** X19. Each window after the first begins with the [order] samples the
    window before it ended with: the first [order] elements of window [k + 1]
    are what window [k] holds beyond its first [batch_size] elements. *)
Theorem fit_batches_lag_context order (data : list V) num_batches
    (Horder : 0 <= order)
    (Hbatches : 1 <= num_batches <= Z.of_nat (length data)) :
  exists log,
    fit_batches recording_train no_persist (fun _ => order) data num_batches false VNone ∅ []
    = Ok log /\
    forall k w w', log !! k = Some w -> log !! S k = Some w' ->
      take (Z.to_nat order) w'
      = drop (Z.to_nat (Z.of_nat (length data) / num_batches)) w /\
      length (take (Z.to_nat order) w') = Z.to_nat order.
Proof.
  eexists. split; [apply fit_batches_recorded; lia|].
  intros k w w' Hw Hw'.
  set (n := Z.of_nat (length data)) in *.
  assert (1 <= n / num_batches) as Hsize by (apply Z.div_le_lower_bound; lia).
  set (bs := n / num_batches) in *.
  rewrite list_lookup_fmap in Hw, Hw'.
  destruct (batch_offsets order bs _ !! k) as [o|] eqn:Ho; [|done].
  destruct (batch_offsets order bs _ !! S k) as [o'|] eqn:Ho'; [|done].
  simpl in Hw, Hw'. injection Hw as <-. injection Hw' as <-.
  pose proof (lookup_lt_Some _ _ _ Ho') as Hk. unfold batch_offsets in Hk.
  rewrite length_fmap, length_seq in Hk.
  rewrite batch_offsets_lookup in Ho, Ho' by lia.
  injection Ho as <-. injection Ho' as <-.
  assert (order + Z.of_nat (S k) * bs < n) as Hin.
  { unfold batch_count in Hk.
    assert (Z.of_nat (S k) < (n - order + bs - 1) / bs) as Hlt by lia.
    pose proof (Z.mul_div_le (n - order + bs - 1) bs ltac:(lia)). nia. }
  unfold batch_window.
  replace (Z.to_nat (order + Z.of_nat (S k) * bs - order))
    with (Z.to_nat (order + Z.of_nat k * bs - order) + Z.to_nat bs)%nat by lia.
  rewrite take_take, <- drop_drop.
  set (rest := drop (Z.to_nat (order + Z.of_nat k * bs - order)) data).
  replace (Z.to_nat order `min` Z.to_nat (order + bs))%nat with (Z.to_nat order) by lia.
  split.
  - rewrite take_drop_commute. f_equal. f_equal. lia.
  - rewrite length_take, length_drop. unfold rest. rewrite length_drop. lia.
Qed.
End FitWindows.

Lemma fit_batches_covers_series_witness :
  exists log,
    fit_batches recording_train no_persist (fun _ => 1) (count_series 11) 3 false VNone ∅ []
    = Ok log /\
    forall i x, count_series 11 !! i = Some x ->
      exists k j w, log !! k = Some w /\ w !! j = Some x /\
        (i = k * Z.to_nat (Z.of_nat (length (count_series 11)) / 3) + j)%nat.
Proof.
  apply (fit_batches_covers_series 1 (count_series 11) 3); vm_compute; intuition discriminate.
Defined.

Lemma fit_batches_lag_context_witness :
  exists log,
    fit_batches recording_train no_persist (fun _ => 2) (count_series 100) 10 false VNone ∅ []
    = Ok log /\
    forall k w w', log !! k = Some w -> log !! S k = Some w' ->
      take (Z.to_nat 2) w'
      = drop (Z.to_nat (Z.of_nat (length (count_series 100)) / 10)) w /\
      length (take (Z.to_nat 2) w') = Z.to_nat 2.
Proof.
  apply (fit_batches_lag_context 2 (count_series 100) 10); vm_compute; intuition discriminate.
Defined.

(** ** Size operations: what [len_total] measures *)

Section SizesMore.
Context {Data FLRG : Type}.
Implicit Types (self : FTS Data FLRG).

Lemma len_total_insert_new self key (flrg : FLRG) :
  flrgs self !! key = None ->
  len_total (store_flrg self key flrg) = (String.length key + len_total self)%nat.
Proof.
  intros Hnew. unfold len_total. simpl. by rewrite map_to_list_insert.
Qed.

(** X20. Storing a rule group under a new key adds 1 to the rule-group count
    and the length of the key to [len_total], whatever the group holds;
    replacing the group stored under a key changes neither. *)
Theorem len_total_follows_keys self key (flrg : FLRG) :
  (flrgs self !! key = None ->
   len (store_flrg self key flrg) = S (len self) /\
   len_total (store_flrg self key flrg) = (String.length key + len_total self)%nat) /\
  (is_Some (flrgs self !! key) ->
   len (store_flrg self key flrg) = len self /\
   len_total (store_flrg self key flrg) = len_total self).
Proof.
  split.
  - intros Hnew. split; [by apply map_size_insert_None|by apply len_total_insert_new].
  - intros [old Hold]. split; [by apply map_size_insert_Some|].
    unfold len_total. simpl.
    rewrite <- insert_delete_eq.
    rewrite <- (insert_delete_id (flrgs self) key old) at 2 by done.
    by rewrite !map_to_list_insert by apply lookup_delete_eq.
Qed.
End SizesMore.

(** ** merge *)

Section MergeFacts.
Context {Data G Item : Type}.
Variable get_key : G -> string.
Variable RHS : G -> rhs_shape Item.
Variable append_rhs : G -> Item -> G.
Implicit Types (self : FTS Data loc) (heap : gmap loc G) (entries : list (string * loc)).

Lemma merge_step_preserves self heap entry self' heap' :
  merge_step get_key RHS append_rhs (self, heap) entry = Some (self', heap') ->
  (forall key l, flrgs self !! key = Some l -> flrgs self' !! key = Some l) /\
  dom heap' = dom heap /\
  transformations self' = transformations self /\
  (order self', max_lag self') = (order self, max_lag self).
Proof.
  unfold merge_step. intros Hstep.
  destruct (heap !! entry.2) as [g|] eqn:Hg; [|done]. simpl in Hstep.
  assert (forall target items h,
            append_all append_rhs heap target items = Some h -> dom h = dom heap) as Hdom.
  { intros target items h. unfold append_all.
    destruct (heap !! target) as [t|] eqn:Ht; [|done]. simpl. intros [= <-].
    by apply dom_insert_lookup_L. }
  destruct (flrgs self !! get_key g) as [target|] eqn:Hk.
  - assert (self' = self /\ dom heap' = dom heap) as [-> Hd]; [|done].
    destruct (RHS g); repeat case_decide; try done;
      match type of Hstep with
      | context [append_all _ _ ?t ?i] =>
          destruct (append_all append_rhs heap t i) as [h|] eqn:Ha; [|done]
      end; simpl in Hstep; injection Hstep as <- <-; eauto.
  - injection Hstep as <- <-. split_and!; try done.
    intros key l Hl. simpl. rewrite lookup_insert_ne; [done|]. congruence.
Qed.

(** X21. A merge that goes through keeps every key of [self] on the group
    object it already had, leaves order, max_lag and the transformations as
    they were, and neither creates nor removes rule-group objects. *)
Theorem merge_preserves self entries heap self' heap'
    (Hmerge : merge get_key RHS append_rhs self entries heap = Some (self', heap')) :
  (forall key l, flrgs self !! key = Some l -> flrgs self' !! key = Some l) /\
  dom heap' = dom heap /\
  transformations self' = transformations self /\
  (order self', max_lag self') = (order self, max_lag self).
Proof.
  unfold merge in Hmerge. revert self heap Hmerge.
  induction entries as [|entry entries IH]; intros self heap Hmerge.
  - by injection Hmerge as <- <-.
  - cbn [merge_loop] in Hmerge.
    destruct (merge_step get_key RHS append_rhs (self, heap) entry) as [[self1 heap1]|] eqn:Hstep;
      [|done].
    simpl in Hmerge.
    destruct (merge_step_preserves _ _ _ _ _ Hstep) as (Hk1 & Hd1 & Ht1 & Ho1).
    destruct (IH _ _ Hmerge) as (Hk & Hd & Ht & Ho).
    split_and!; [eauto|congruence..].
Qed.

(** X22. Merging groups whose keys are new to [self] and differ from one
    another changes no group: each key is added, mapped to the source's own
    group object, the keys of [self] stay as they are and no other key
    appears. *)
Theorem merge_disjoint self entries heap (groups : list G)
    (Hheap : Forall2 (fun entry g => heap !! entry.2 = Some g) entries groups)
    (Hnew : Forall (fun g => flrgs self !! get_key g = None) groups)
    (Hdistinct : NoDup (get_key <$> groups)) :
  exists self',
    merge get_key RHS append_rhs self entries heap = Some (self', heap) /\
    (forall key l, flrgs self !! key = Some l -> flrgs self' !! key = Some l) /\
    (forall i entry g, entries !! i = Some entry -> groups !! i = Some g ->
       flrgs self' !! get_key g = Some entry.2) /\
    (forall key, is_Some (flrgs self' !! key) ->
       is_Some (flrgs self !! key) \/ key ∈ get_key <$> groups).
Proof.
  unfold merge. revert self Hnew Hdistinct.
  induction Hheap as [|entry g entries groups Hg _ IH]; intros self Hnew Hdistinct.
  - exists self. split_and!; [done|done| |by left].
    intros i entry g Hi. by rewrite lookup_nil in Hi.
  - apply Forall_cons in Hnew as [Hnew1 Hnew].
    rewrite fmap_cons in Hdistinct. apply NoDup_cons in Hdistinct as [Hfresh Hdistinct].
    cbn [merge_loop]. unfold merge_step at 1. rewrite Hg. simpl. rewrite Hnew1. simpl.
    destruct (IH (store_flrg self (get_key g) entry.2)) as (self' & Hloop & Hold & Hadd & Hdom).
    + rewrite Forall_forall in Hnew. apply Forall_forall. intros g' Hin. simpl.
      rewrite lookup_insert_ne; [by apply Hnew|].
      intros Heq. apply Hfresh. rewrite Heq. by apply list_elem_of_fmap_2.
    + done.
    + exists self'. split_and!; [done| | |].
      * intros key l Hl. apply Hold. simpl. rewrite lookup_insert_ne; [done|]. congruence.
      * intros [|i] entry' g' Hi Hgi; simpl in Hi, Hgi.
        -- injection Hi as <-. injection Hgi as <-. apply Hold. simpl.
           apply lookup_insert_eq.
        -- eauto.
      * intros key Hkey. destruct (Hdom key Hkey) as [Hin|Hin].
        -- simpl in Hin. destruct (decide (get_key g = key)) as [<-|Hne].
           ++ right. left.
           ++ left. by rewrite lookup_insert_ne in Hin.
        -- right. by right.
Qed.

(** X23. A source group whose key [self] already has is not stored: its
    [RHS] is appended to the group of [self], element by element and in
    order for a list or a set, value by value for a dict, as a whole
    otherwise; the source group and the key mapping stay as they are. *)
Theorem merge_collision self key (flrg target : loc) heap (g t : G)
    (Hg : heap !! flrg = Some g)
    (Hkey : flrgs self !! get_key g = Some target)
    (Ht : heap !! target = Some t)
    (Hother : target <> flrg) :
  merge get_key RHS append_rhs self [(key, flrg)] heap
  = Some (self, <[target := foldl append_rhs t (rhs_items (RHS g))]> heap) /\
  (<[target := foldl append_rhs t (rhs_items (RHS g))]> heap) !! flrg = Some g.
Proof.
  split; [|by rewrite lookup_insert_ne].
  unfold merge. cbn [merge_loop]. unfold merge_step. cbn [snd]. rewrite Hg. simpl.
  rewrite Hkey.
  unfold append_all. rewrite Ht.
  destruct (RHS g); simpl; by rewrite ?decide_False by done.
Qed.
End MergeFacts.

Lemma merge_preserves_witness :
  merge sample_get_key sample_rhs sample_append_rhs
    (sample_model (Data := Z) [] {[ "A1" := 0%nat ]}) [("A2", 1%nat); ("A1", 2%nat)]
    {[ 0%nat := {| LHS := "A1"; RHS := ["A1"] |};
       1%nat := {| LHS := "A2"; RHS := ["A3"] |};
       2%nat := {| LHS := "A1"; RHS := ["A2"] |} ]}
  = Some (sample_model (Data := Z) [] {[ "A2" := 1%nat; "A1" := 0%nat ]},
          {[ 0%nat := {| LHS := "A1"; RHS := ["A1"; "A2"] |};
             1%nat := {| LHS := "A2"; RHS := ["A3"] |};
             2%nat := {| LHS := "A1"; RHS := ["A2"] |} ]}) /\
  (forall key l,
     flrgs (sample_model (Data := Z) [] {[ "A1" := 0%nat ]}) !! key = Some l ->
     flrgs (sample_model (Data := Z) [] {[ "A2" := 1%nat; "A1" := 0%nat ]}) !! key = Some l) /\
  dom ({[ 0%nat := {| LHS := "A1"; RHS := ["A1"; "A2"] |};
          1%nat := {| LHS := "A2"; RHS := ["A3"] |};
          2%nat := {| LHS := "A1"; RHS := ["A2"] |} ]} : gmap loc SampleFLRG)
  = dom ({[ 0%nat := {| LHS := "A1"; RHS := ["A1"] |};
            1%nat := {| LHS := "A2"; RHS := ["A3"] |};
            2%nat := {| LHS := "A1"; RHS := ["A2"] |} ]} : gmap loc SampleFLRG).
Proof.
  assert (merge sample_get_key sample_rhs sample_append_rhs
    (sample_model (Data := Z) [] {[ "A1" := 0%nat ]}) [("A2", 1%nat); ("A1", 2%nat)]
    {[ 0%nat := {| LHS := "A1"; RHS := ["A1"] |};
       1%nat := {| LHS := "A2"; RHS := ["A3"] |};
       2%nat := {| LHS := "A1"; RHS := ["A2"] |} ]}
  = Some (sample_model (Data := Z) [] {[ "A2" := 1%nat; "A1" := 0%nat ]},
          {[ 0%nat := {| LHS := "A1"; RHS := ["A1"; "A2"] |};
             1%nat := {| LHS := "A2"; RHS := ["A3"] |};
             2%nat := {| LHS := "A1"; RHS := ["A2"] |} ]})) as Hmerge by (by vm_compute).
  split; [exact Hmerge|].
  destruct (merge_preserves sample_get_key sample_rhs sample_append_rhs _ _ _ _ _ Hmerge)
    as (Hkeys & Hdom & _).
  split; [exact Hkeys|exact Hdom].
Defined.

Lemma merge_disjoint_witness :
  exists self',
    merge sample_get_key sample_rhs sample_append_rhs
      (sample_model (Data := Z) [] {[ "A1" := 0%nat ]}) [("A2", 1%nat)]
      {[ 0%nat := {| LHS := "A1"; RHS := ["A1"] |};
         1%nat := {| LHS := "A2"; RHS := ["A3"] |} ]}
    = Some (self', {[ 0%nat := {| LHS := "A1"; RHS := ["A1"] |};
                      1%nat := {| LHS := "A2"; RHS := ["A3"] |} ]}) /\
    flrgs self' !! "A1" = Some 0%nat /\ flrgs self' !! "A2" = Some 1%nat.
Proof.
  destruct (merge_disjoint sample_get_key sample_rhs sample_append_rhs
              (sample_model (Data := Z) [] {[ "A1" := 0%nat ]}) [("A2", 1%nat)]
              {[ 0%nat := {| LHS := "A1"; RHS := ["A1"] |};
                 1%nat := {| LHS := "A2"; RHS := ["A3"] |} ]}
              [{| LHS := "A2"; RHS := ["A3"] |}])
    as (self' & Hmerge & Hold & Hadd & _).
  - repeat constructor.
  - repeat constructor.
  - repeat constructor. by apply not_elem_of_nil.
  - exists self'. split_and!; [done| |].
    + by apply Hold.
    + by apply (Hadd 0%nat ("A2", 1%nat) {| LHS := "A2"; RHS := ["A3"] |}).
Defined.

Lemma merge_collision_witness :
  merge sample_get_key sample_rhs sample_append_rhs
    (sample_model (Data := Z) [] {[ "A1" := 0%nat ]}) [("A1", 1%nat)]
    {[ 0%nat := {| LHS := "A1"; RHS := ["A1"] |};
       1%nat := {| LHS := "A1"; RHS := ["A2"; "A3"; "A4"] |} ]}
  = Some (sample_model (Data := Z) [] {[ "A1" := 0%nat ]},
          {[ 0%nat := {| LHS := "A1"; RHS := ["A1"; "A2"; "A3"; "A4"] |};
             1%nat := {| LHS := "A1"; RHS := ["A2"; "A3"; "A4"] |} ]}).
Proof.
  etrans.
  - apply (merge_collision sample_get_key sample_rhs sample_append_rhs
             (sample_model (Data := Z) [] {[ "A1" := 0%nat ]}) "A1" 1%nat 0%nat
             {[ 0%nat := {| LHS := "A1"; RHS := ["A1"] |};
                1%nat := {| LHS := "A1"; RHS := ["A2"; "A3"; "A4"] |} ]}
             {| LHS := "A1"; RHS := ["A2"; "A3"; "A4"] |} {| LHS := "A1"; RHS := ["A1"] |});
      done.
  - by vm_compute.
Defined.

(** ** fit: the check for fuzzy sets, and what [order=] changes *)

Lemma foldM_invariant {A B} (P : A -> Prop) (f : A -> B -> result A) (l : list B) (a a' : A) :
  (forall x b y, f x b = Ok y -> P x -> P y) ->
  foldM f a l = Ok a' -> P a -> P a'.
Proof.
  intros Hstep. revert a. induction l as [|b l IH]; intros a Hfold Ha; simpl in Hfold.
  - by injection Hfold as <-.
  - destruct (f a b) as [a1|e] eqn:Hf; [|done]. simpl in Hfold. eauto.
Qed.

Section FitFull.
Context {V FLRG : Type}.
Variable np_nanmin : list V -> result Q.
Variable np_nanmax : list V -> result Q.
Variable train : Trainee V FLRG -> list V -> Kwargs -> result (Trainee V FLRG).
Variable persist_obj : Trainee V FLRG -> pyval -> result (Trainee V FLRG).
Variable distributed_train :
  Trainee V FLRG -> pyval -> list V -> pyval -> pyval -> pyval -> pyval
  -> result (Trainee V FLRG).
Implicit Types (self : Trainee V FLRG) (kwargs : Kwargs).

Lemma fit_preprocess_fields self ndata data self1 :
  fit_preprocess np_nanmin np_nanmax self ndata = Ok (data, self1) ->
  fts_sets (core self1) = fts_sets (core self) /\
  model_partitioner self1 = model_partitioner self /\
  benchmark_only self1 = benchmark_only self /\
  is_multivariate (core self1) = is_multivariate (core self) /\
  keeps_lags self self1.
Proof.
  unfold fit_preprocess, keeps_lags. intros Hpre.
  destruct (is_multivariate (core self)) eqn:Hmv.
  - injection Hpre as <- <-. by rewrite Hmv.
  - destruct (apply_transformations _ _ _) as [d|]; [|done]. simpl in Hpre.
    destruct (np_nanmin d); [|done]. simpl in Hpre.
    destruct (np_nanmax d); [|done]. simpl in Hpre.
    by injection Hpre as <- <-.
Qed.

(** X24. A univariate model that is not benchmark-only, has no fuzzy sets
    after the [sets] keyword is taken into account and has no partitioner
    after the [partitioner] keyword is, cannot be fitted: once preprocessing
    has succeeded, [fit] raises its [Exception] about missing fuzzy sets,
    whatever the other options and whatever [train] would do. *)
Theorem fit_without_sets self ndata sets_kw partitioner_kw order_kw kwargs data self1
    (Hpre : fit_preprocess np_nanmin np_nanmax self ndata = Ok (data, self1))
    (Hsets : default (fts_sets (core self)) sets_kw = [])
    (Hpart : default (model_partitioner self) partitioner_kw = None)
    (Hbench : benchmark_only self = false)
    (Hmv : is_multivariate (core self) = false) :
  fit np_nanmin np_nanmax train persist_obj distributed_train
    self ndata sets_kw partitioner_kw order_kw kwargs
  = FitException no_sets_message.
Proof.
  destruct (fit_preprocess_fields _ _ _ _ Hpre) as (Hs & Hp & Hb & Hm & _).
  unfold fit. rewrite Hpre. cbn [lift_result mbind outcome_bind].
  assert (fit_resolve_sets self1 sets_kw partitioner_kw = FitException no_sets_message) as ->;
    [|done].
  unfold fit_resolve_sets.
  destruct sets_kw as [s|], partitioner_kw as [p|]; simpl in *; subst;
    rewrite ?Hs, ?Hsets, ?Hp, ?Hpart, ?Hb, ?Hbench, ?Hm, ?Hmv; simpl; done.
Qed.

Lemma fit_resolve_sets_lags self sets_kw partitioner_kw self2 :
  fit_resolve_sets self sets_kw partitioner_kw = Fitted self2 -> keeps_lags self self2.
Proof.
  unfold fit_resolve_sets, keeps_lags. intros Hres.
  destruct sets_kw, partitioner_kw; simpl in Hres;
    repeat match type of Hres with
           | context [if ?c then _ else _] => destruct c
           | context [match ?p with Some _ => _ | None => _ end] => destruct p
           end; try done; by injection Hres as <-.
Qed.

(** X25. [fit(..., order=o)] sets [order] to [o] and leaves [max_lag], the
    lag that one-step and multi-step forecasting actually use, at its old
    value, as long as the hooks it calls ([train], the saves, the cluster)
    do not assign these two fields themselves. *)
Theorem fit_order_keeps_max_lag self ndata sets_kw partitioner_kw o kwargs self'
    (Htrain : forall st d kw st', train st d kw = Ok st' -> keeps_lags st st')
    (Hpersist : forall st path st', persist_obj st path = Ok st' -> keeps_lags st st')
    (Hcluster : forall st nodes d nb bs path interval st',
        distributed_train st nodes d nb bs path interval = Ok st' -> keeps_lags st st')
    (Hfit : fit np_nanmin np_nanmax train persist_obj distributed_train
              self ndata sets_kw partitioner_kw (Some o) kwargs = Fitted self') :
  order (core self') = o /\ max_lag (core self') = max_lag (core self).
Proof.
  unfold fit in Hfit.
  destruct (fit_preprocess np_nanmin np_nanmax self ndata) as [[data self1]|] eqn:Hpre; [|done].
  cbn [lift_result mbind outcome_bind] in Hfit.
  destruct (fit_preprocess_fields _ _ _ _ Hpre) as (_ & _ & _ & _ & _ & Hl1).
  destruct (fit_resolve_sets self1 sets_kw partitioner_kw) as [self2| |] eqn:Hres; [|done..].
  cbn [mbind outcome_bind] in Hfit.
  destruct (fit_resolve_sets_lags _ _ _ _ Hres) as [_ Hl2].
  set (self3 := with_core self2 (set_order (core self2) o)) in *.
  assert (order (core self3) = o /\ max_lag (core self3) = max_lag (core self)) as Hinit.
  { split; [done|]. simpl. congruence. }
  clearbody self3.
  set (P := fun st : Trainee V FLRG =>
              order (core st) = o /\ max_lag (core st) = max_lag (core self)).
  assert (forall st st', keeps_lags st st' -> P st -> P st') as Hkeep.
  { intros st st' [Ho Hm] [Hpo Hpm]. split; congruence. }
  destruct (fit_run train persist_obj distributed_train self3 data kwargs) as [self4|] eqn:Hrun;
    [|done].
  cbn [lift_result mbind outcome_bind] in Hfit.
  assert (P self4) as H4.
  { unfold fit_run in Hrun. destruct (py_truthy _).
    - eapply Hkeep; [eapply Hcluster; exact Hrun|done].
    - case_bool_decide.
      + eapply Hkeep; [eapply Htrain; exact Hrun|done].
      + destruct (batches_of _) as [nb|]; [|done]. simpl in Hrun.
        unfold fit_batches in Hrun. destruct (int_div _ _) as [bsz|]; [|done]. simpl in Hrun.
        destruct (py_range _ _ _) as [rng|]; [|done]. simpl in Hrun.
        eapply (foldM_invariant P); [|exact Hrun|done].
        intros x ct y Hstep Hx. unfold train_batch, train_window in Hstep.
        destruct (train x _ kwargs) as [x1|] eqn:Hx1; [|done]. simpl in Hstep.
        assert (P x1) by (eapply Hkeep; [eapply Htrain; exact Hx1|done]).
        destruct (py_truthy _).
        * eapply Hkeep; [eapply Hpersist; exact Hstep|done].
        * by injection Hstep as <-. }
  destruct (py_truthy _).
  - destruct (persist_obj self4 _) as [self5|] eqn:Hsave; [|done].
    injection Hfit as <-. eapply Hkeep; [eapply Hpersist; exact Hsave|done].
  - by injection Hfit as <-.
Qed.
End FitFull.

Lemma fit_without_sets_witness :
  fit list_min list_max train_pass no_persist no_cluster_train
    (sample_trainee [] None) [3; 1; 2] None None (Some 2) {[ "num_batches" := VInt 3 ]}
  = FitException no_sets_message.
Proof.
  by apply (fit_without_sets list_min list_max train_pass no_persist no_cluster_train
              (sample_trainee [] None) [3; 1; 2] None None (Some 2)
              {[ "num_batches" := VInt 3 ]} [3; 1; 2]
              (with_core (sample_trainee [] None)
                 (set_bounds (core (sample_trainee [] None)) (inject_Z 1) (inject_Z 3)))).
Defined.

Lemma fit_order_keeps_max_lag_witness :
  exists self',
    fit list_min list_max train_pass no_persist no_cluster_train
      (sample_trainee sample_sets None) [3; 1; 2; 5] None None (Some 2)
      {[ "num_batches" := VInt 2 ]} = Fitted self' /\
    order (core self') = 2 /\ max_lag (core self') = 1.
Proof.
  eexists. split; [by vm_compute|].
  apply (fit_order_keeps_max_lag list_min list_max train_pass no_persist no_cluster_train
           (sample_trainee sample_sets None) [3; 1; 2; 5] None None 2
           {[ "num_batches" := VInt 2 ]}).
  - by intros st d kw st' [= <-].
  - by intros st path st' [= <-].
  - by intros st nodes d nb bs path interval st' [=].
  - by vm_compute.
Defined.

(** ** The inverse pipeline and the multi-step dispatch, as they run *)

(** X26. With one or more transformations, a parameter slot for each, and
    inverse calls that succeed on the data, [apply_inverse_transformations]
    returns the inverse of the transformation registered FIRST, applied to
    the data it was given, with the LAST parameter slot; the results of the
    other inverses are not used. *)
Theorem inverse_pipeline_result {Data FLRG} (self : FTS Data FLRG) (data : Data)
    (params : option (list (@Param Data))) (kwargs : Kwargs)
    (t1 : Transformation Data) (ts : list (Transformation Data))
    (Hts : transformations self = t1 :: ts)
    (Hok : forall t p, t ∈ ts -> exists r, t_inverse t data p kwargs = Ok r)
    (Hslots : length (default_params self params) = S (length ts)) :
  apply_inverse_transformations self data params kwargs
  = (p ← py_index (default_params self params) (Z.of_nat (length ts));
     t_inverse t1 data p kwargs).
Proof. by apply apply_inverse_transformations_keeps_last. Qed.

Lemma inverse_pipeline_result_witness :
  apply_inverse_transformations
    (sample_model (FLRG := SampleFLRG) [shift 1; scale 2; scale 5] ∅) 22 None ∅
  = Ok 21.
Proof.
  etrans.
  - apply (inverse_pipeline_result
             (sample_model (FLRG := SampleFLRG) [shift 1; scale 2; scale 5] ∅) 22 None ∅
             (shift 1) [scale 2; scale 5]).
    + reflexivity.
    + intros t p Ht. apply elem_of_cons in Ht as [->|Ht]; [by eexists|].
      apply list_elem_of_singleton in Ht as ->. by eexists.
    + reflexivity.
  - reflexivity.
Defined.

(** X27. For the types point, interval and distribution and an integer
    horizon greater than 1, the dispatch of [predict] calls the matching
    multi-step operation with the preprocessed data, the horizon as [steps]
    and the remaining keywords. *)
Theorem dispatch_multi_step {Data} (methods : Methods Data) (ndata : Data)
    (kwargs : Kwargs) (z : Z)
    (Hsteps : kwargs !! "steps_ahead" = Some (VInt z))
    (Hz : 1 < z) :
  dispatch methods ndata (VStr "point") kwargs
    = Some <$> call_multi_step (impl_forecast_ahead methods) ndata (VInt z) kwargs /\
  dispatch methods ndata (VStr "interval") kwargs
    = Some <$> call_multi_step (impl_forecast_ahead_interval methods) ndata (VInt z) kwargs /\
  dispatch methods ndata (VStr "distribution") kwargs
    = Some <$> call_multi_step (impl_forecast_ahead_distribution methods) ndata (VInt z) kwargs.
Proof. by apply dispatch_ahead_with_steps. Qed.

Lemma dispatch_multi_step_witness :
  dispatch capable_methods 5 (VStr "interval") {[ "steps_ahead" := VInt 3 ]} = Ok (Some 503).
Proof.
  etrans.
  - apply (dispatch_multi_step capable_methods 5 {[ "steps_ahead" := VInt 3 ]} 3); [done|lia].
  - reflexivity.
Defined.
